(** * Payroll record-keeper (app.py): calculator, year-to-date aggregation
      and the record-store handlers, embedded in Rocq.

    Python [float] values are IEEE-754 binary64 numbers; they are modelled by
    Rocq's primitive floats, which are the same format with the same
    round-to-nearest-even operations.  The integer literals the source mixes
    into float arithmetic ([0], [130000]) are exactly representable and
    Python coerces them to [float] in a mixed operation, so they are written
    as the corresponding floats.

    The record store is SQLite behind the ORM: a [Float] column holds NULL
    for NaN and 0.0 for a zero of either sign, and an integer bound into a
    query must fit 64 bits. *)

From Stdlib Require Import ZArith Floats Lia Bool Ascii String.
From stdpp Require Import gmap strings list fin_maps.

(* A decimal literal such as [0.056] denotes the nearest binary64 number, in
   Rocq as in Python. *)
Set Warnings "-inexact-float".

Local Open Scope Z_scope.

(** ** Calendar dates ([datetime.date]) *)

Record date := mkDate { year : Z; month : Z; day : Z }.

(** Python compares the pairs [(month, day)] lexicographically. *)
Definition pair_ltb (a b : Z * Z) : bool :=
  (a.1 <? b.1) || ((a.1 =? b.1) && (a.2 <? b.2)).

(** Order of [date] objects: by year, then month, then day. *)
Definition date_leb (a b : date) : bool :=
  (year a <? year b)
  || ((year a =? year b)
      && ((month a <? month b) || ((month a =? month b) && (day a <=? day b)))).

Definition date_le (a b : date) : Prop := date_leb a b = true.

(** [date(y, 1, 1)]. *)
Definition start_of_year_of (d : date) : date := mkDate (year d) 1 1.

(** ** Builtins: [round(x, 2)] on a float

    CPython rounds the exact value of [x] to two decimals, ties to even, and
    returns the binary64 number nearest to that decimal; NaN, the infinities
    and the zeros round to themselves, and a value that rounds to zero keeps
    its sign. *)

Definition round_half_even_div (a b : Z) : Z :=
  let q := a / b in
  match 2 * (a mod b) ?= b with
  | Lt => q
  | Gt => q + 1
  | Eq => if Z.even q then q else q + 1
  end.

(** The integer nearest to [100 * m * 2^e]. *)
Definition scaled_cents (m : positive) (e : Z) : Z :=
  if 0 <=? e then 100 * Zpos m * 2 ^ e
  else round_half_even_div (100 * Zpos m) (2 ^ (- e)).

Definition py_round2 (x : float) : float :=
  match Prim2SF x with
  | S754_finite s m e =>
      match scaled_cents m e with
      | Zpos n => SF2Prim (SFdiv prec emax (S754_finite s n 0) (S754_finite false 100 0))
      | _ => SF2Prim (S754_zero s)
      end
  | _ => x
  end.

(** [signed_nonzero s r]: [r] is a finite non-zero number or an infinity of
    sign [s] ([true] is negative). *)
Definition signed_nonzero (s : bool) (r : spec_float) : Prop :=
  match r with
  | S754_finite s' _ _ | S754_infinity s' => s' = s
  | _ => False
  end.

(** ** Models *)

Module Employee.
Record t := mk {
  id : Z;
  employee_id_code : option string;
  first_name : option string;
  last_name : option string;
  department : option string;
  position : option string;
  email : option string;
  nis_number : option string;
  tax_reference : option string;
  bank_name : option string;
  bank_account : option string;
  date_of_birth : option date
}.

(** The [age] property; [date.today()] is the explicit argument [today]. *)
Definition age (today : date) (self : t) : option Z :=
  match date_of_birth self with
  | Some dob =>
      Some (year today - year dob
            - Z.b2z (pair_ltb (month today, day today) (month dob, day dob)))
  | None => None
  end.
End Employee.

(** A [Float] attribute is a binary64 number or [None] (a NULL column). *)
Module Payslip.
Record t := mk {
  id : Z;
  employee_id : Z;
  period_start : date;
  period_end : date;
  basic_pay : option float;
  overtime_pay : option float;
  allowances : option float;
  tax : option float;
  nis : option float;
  other_deductions : option float;
  net_pay : option float;
  hours_worked : option float;
  rate_per_hour : option float;
  created_by : Z;
  created_at : Z;
  date_of_birth : option date
}.
End Payslip.

(** ** Exceptions and the result of a computation that may raise *)

Inductive exn :=
  | NotFound                          (* get_or_404: HTTP 404 *)
  | BadRequestKeyError (key : string) (* request.form[key], key missing: HTTP 400 *)
  | ValueError                        (* float() or date.fromisoformat() on bad text *)
  | NameError (name : string)         (* a name bound in no enclosing scope *)
  | IntegrityError                    (* a uniqueness constraint refused the commit *)
  | TypeError                         (* [float += None] *)
  | OverflowError.                    (* an integer too large for an SQLite INTEGER *)

Inductive result (A : Type) :=
  | Ok (a : A)
  | Raise (e : exn).
Arguments Ok {A} a.
Arguments Raise {A} e.

#[global] Instance result_ret : MRet result := fun A a => Ok a.
#[global] Instance result_bind : MBind result := fun A B f m =>
  match m with
  | Ok a => f a
  | Raise e => Raise e
  end.

(** [try: body except Exception: handler]. *)
Definition try_except {A} (body : result A) (handler : exn -> result A) : result A :=
  match body with
  | Ok a => Ok a
  | Raise e => handler e
  end.

Definition of_option {A} (e : exn) (o : option A) : result A :=
  match o with
  | Some a => Ok a
  | None => Raise e
  end.

(** ** The string conversions of the Python runtime

    [float(s)] and [date.fromisoformat(s)] on a string; [None] stands for the
    [ValueError] they raise on text they do not accept. *)
Class Runtime := {
  float_of_str : string -> option float;
  date_fromisoformat : string -> option date
}.

(** *** A reference runtime

    Plain decimal literals ([-12], [1500.50], [.5]) and [YYYY-MM-DD] dates,
    read as the builtins read them.  The builtins accept more (exponents,
    [inf], [nan], surrounding blanks; other ISO forms): such text is rejected
    here.  The development below is stated for every [Runtime]; this instance
    serves to run the handlers on concrete requests. *)

Definition digit_of_ascii (c : ascii) : option Z :=
  let n := Z.of_N (N_of_ascii c) in
  if (48 <=? n) && (n <=? 57) then Some (n - 48) else None.

Fixpoint digits_value (acc : Z) (s : string) : option Z :=
  match s with
  | EmptyString => Some acc
  | String c r =>
      match digit_of_ascii c with
      | Some d => digits_value (10 * acc + d) r
      | None => None
      end
  end.

(** Splits at the first ["."]: integer digits, and fraction digits if any. *)
Fixpoint split_point (s : string) : string * option string :=
  match s with
  | EmptyString => (EmptyString, None)
  | String c r =>
      if Ascii.eqb c "."%char then (EmptyString, Some r)
      else let '(i, f) := split_point r in (String c i, f)
  end.

Definition strip_sign (s : string) : bool * string :=
  match s with
  | String c r =>
      if Ascii.eqb c "-"%char then (true, r)
      else if Ascii.eqb c "+"%char then (false, r)
      else (false, s)
  | EmptyString => (false, s)
  end.

(** The binary64 number nearest to [(-1)^s * m / 10^k]. *)
Definition nearest_decimal (s : bool) (m : Z) (k : Z) : float :=
  match m with
  | Zpos n =>
      SF2Prim (SFdiv prec emax (S754_finite s n 0)
                 (S754_finite false (Z.to_pos (10 ^ k)) 0))
  | _ => SF2Prim (S754_zero s)
  end.

Definition decimal_float (s : string) : option float :=
  let '(neg, body) := strip_sign s in
  let '(ip, fp) := split_point body in
  let fp := default EmptyString fp in
  if (String.length ip + String.length fp =? 0)%nat then None
  else
    match digits_value 0 (ip ++ fp) with
    | Some m => Some (nearest_decimal neg m (Z.of_nat (String.length fp)))
    | None => None
    end.

Definition is_leap (y : Z) : bool :=
  (y mod 4 =? 0) && (negb (y mod 100 =? 0) || (y mod 400 =? 0)).

Definition days_in_month (y m : Z) : Z :=
  if m =? 2 then (if is_leap y then 29 else 28)
  else if (m =? 4) || (m =? 6) || (m =? 9) || (m =? 11) then 30
  else 31.

Definition valid_date (d : date) : bool :=
  (1 <=? year d) && (year d <=? 9999) && (1 <=? month d) && (month d <=? 12)
  && (1 <=? day d) && (day d <=? days_in_month (year d) (month d)).

Definition iso_date (s : string) : option date :=
  if (String.length s =? 10)%nat
     && String.eqb (substring 4 1 s) "-" && String.eqb (substring 7 1 s) "-"
  then
    y ← digits_value 0 (substring 0 4 s);
    m ← digits_value 0 (substring 5 2 s);
    d ← digits_value 0 (substring 8 2 s);
    let r := mkDate y m d in
    if valid_date r then Some r else None
  else None.

Definition reference_runtime : Runtime :=
  {| float_of_str := decimal_float; date_fromisoformat := iso_date |}.

(** ** Payroll logic *)

Section PayrollLogic.
Context {RT : Runtime}.

(** [float(x)] where [x] is what [form.get(name, 0) or 0] leaves: a non-empty
    string, or the integer 0 when the field is absent or empty. *)
Definition py_float (x : option string) : result float :=
  match x with
  | Some s => of_option ValueError (float_of_str s)
  | None => Ok 0%float
  end.

(** [form.get(name, 0) or 0]: an empty string is falsy. *)
Definition get_or_0 (form : gmap string string) (name : string) : option string :=
  match form !! name with
  | Some s => if String.eqb s "" then None else Some s
  | None => None
  end.

(** The handler's [return 0] is the integer 0; it is used and stored as the
    float 0.0. *)
Definition parse_float (form : gmap string string) (name : string) : result float :=
  try_except (py_float (get_or_0 form name)) (fun _ => Ok 0%float).

(** [employee.age] is read twice in the test; the first reading only asks
    whether it is [None], which does not depend on the day, so one [today]
    serves both. *)
Definition compute_payroll (today : date) (employee : Employee.t)
    (basic overtime allowances hours_worked rate_per_hour : float)
  : float * float * float * float :=
  let hourly_total := (hours_worked * rate_per_hour)%float in
  let gross := (basic + overtime + allowances + hourly_total)%float in
  let nis :=
    match Employee.age today employee with
    | Some a => if a <? 60 then py_round2 (gross * 0.056) else 0%float
    | None => 0%float
    end in
  let tax := if (130000 <? gross)%float then ((gross - 130000) * 0.28)%float else 0%float in
  let net := (gross - (nis + tax))%float in
  (gross, nis, tax, net).

End PayrollLogic.

(** ** The record store (SQLite)

    Rows are kept in insertion order; a query without [order_by] returns
    them in that order.  A [Float] column does not hold every float it is
    given, and an integer parameter of a query must fit 64 bits. *)

Record Store := mkStore {
  employees : list Employee.t;
  payslips : list Payslip.t
}.

(** The key a new row receives: one more than the largest in use. *)
Definition next_id {A} (key : A -> Z) (rows : list A) : Z :=
  1 + foldr Z.max 0 (key <$> rows).

(** An integer that SQLite's 64-bit INTEGER holds; binding any other as a
    query parameter raises [OverflowError]. *)
Definition sqlite_integer (k : Z) : bool := (- 2 ^ 63 <=? k) && (k <? 2 ^ 63).

Definition get_or_404 {A} (key : A -> Z) (rows : list A) (k : Z) : result A :=
  if sqlite_integer k then of_option NotFound (List.find (fun r => key r =? k) rows)
  else Raise OverflowError.

(** What a [Float] column holds after a float was written to it: NaN is
    stored as NULL, and a zero, kept as the integer 0, comes back as 0.0
    whatever its sign; every other number, the infinities included, comes
    back as it was. *)
Definition sqlite_real (x : float) : option float :=
  match Prim2SF x with
  | S754_nan => None
  | S754_zero _ => Some 0%float
  | _ => Some x
  end.

Definition float_column (v : option float) : option float := v ≫= sqlite_real.

Definition code_taken (code : option string) (rows : list Employee.t) : bool :=
  match code with
  | Some c =>
      existsb (fun r => match Employee.employee_id_code r with
                        | Some c' => String.eqb c c'
                        | None => false
                        end) rows
  | None => false
  end.

(** [db.session.add(e); db.session.commit()] for a new employee: the unique
    index on [employee_id_code] refuses a code already present. *)
Definition add_employee (st : Store) (e : Employee.t) : result (Store * Z) :=
  if code_taken (Employee.employee_id_code e) (employees st) then Raise IntegrityError
  else
    let k := next_id Employee.id (employees st) in
    let row := Employee.mk k (Employee.employee_id_code e) (Employee.first_name e)
                 (Employee.last_name e) (Employee.department e) (Employee.position e)
                 (Employee.email e) (Employee.nis_number e) (Employee.tax_reference e)
                 (Employee.bank_name e) (Employee.bank_account e)
                 (Employee.date_of_birth e) in
    Ok (mkStore (employees st ++ [row]) (payslips st), k).

Definition with_id (k : Z) (p : Payslip.t) : Payslip.t :=
  Payslip.mk k (Payslip.employee_id p) (Payslip.period_start p) (Payslip.period_end p)
    (Payslip.basic_pay p) (Payslip.overtime_pay p) (Payslip.allowances p)
    (Payslip.tax p) (Payslip.nis p) (Payslip.other_deductions p) (Payslip.net_pay p)
    (Payslip.hours_worked p) (Payslip.rate_per_hour p) (Payslip.created_by p)
    (Payslip.created_at p) (Payslip.date_of_birth p).

(** The row that the attributes of [p] become once written. *)
Definition as_stored (p : Payslip.t) : Payslip.t :=
  Payslip.mk (Payslip.id p) (Payslip.employee_id p) (Payslip.period_start p)
    (Payslip.period_end p)
    (float_column (Payslip.basic_pay p)) (float_column (Payslip.overtime_pay p))
    (float_column (Payslip.allowances p)) (float_column (Payslip.tax p))
    (float_column (Payslip.nis p)) (float_column (Payslip.other_deductions p))
    (float_column (Payslip.net_pay p)) (float_column (Payslip.hours_worked p))
    (float_column (Payslip.rate_per_hour p)) (Payslip.created_by p)
    (Payslip.created_at p) (Payslip.date_of_birth p).

(** [db.session.add(p); db.session.commit()] for a new payslip. *)
Definition add_payslip (st : Store) (p : Payslip.t) : Store * Z :=
  let k := next_id Payslip.id (payslips st) in
  (mkStore (employees st) (payslips st ++ [as_stored (with_id k p)]), k).

(** [db.session.commit()] after the attributes of a loaded payslip were set. *)
Definition update_payslip (st : Store) (p : Payslip.t) : Store :=
  mkStore (employees st)
    ((fun r => if Payslip.id r =? Payslip.id p then as_stored p else r) <$> payslips st).

(** ** Year-to-date aggregation *)

Definition in_ytd_query (employee_id : Z) (period_end : date) (s : Payslip.t) : bool :=
  (Payslip.employee_id s =? employee_id)
  && date_leb (start_of_year_of period_end) (Payslip.period_end s)
  && date_leb (Payslip.period_end s) period_end.

(** [totals[key] += v] for one of the seven keys, which the dictionary
    holds from the start: adding [None] to a float raises [TypeError]. *)
Definition dict_iadd (key : string) (v : option float) (totals : gmap string float)
  : result (gmap string float) :=
  match v with
  | Some x => Ok (alter (fun t => (t + x)%float) key totals)
  | None => Raise TypeError
  end.

(** The body of the loop, for one payslip. *)
Definition ytd_step (totals : gmap string float) (s : Payslip.t)
  : result (gmap string float) :=
  totals ← dict_iadd "basic_pay" (Payslip.basic_pay s) totals;
  totals ← dict_iadd "overtime_pay" (Payslip.overtime_pay s) totals;
  totals ← dict_iadd "allowances" (Payslip.allowances s) totals;
  totals ← dict_iadd "tax" (Payslip.tax s) totals;
  totals ← dict_iadd "nis" (Payslip.nis s) totals;
  totals ← dict_iadd "other_deductions" (Payslip.other_deductions s) totals;
  dict_iadd "net_pay" (Payslip.net_pay s) totals.

Fixpoint ytd_loop (totals : gmap string float) (slips : list Payslip.t)
  : result (gmap string float) :=
  match slips with
  | [] => Ok totals
  | s :: slips => totals ← ytd_step totals s; ytd_loop totals slips
  end.

Definition zero_totals : gmap string float :=
  <["basic_pay" := 0%float]> (<["overtime_pay" := 0%float]> (<["allowances" := 0%float]>
  (<["tax" := 0%float]> (<["nis" := 0%float]> (<["other_deductions" := 0%float]>
  (<["net_pay" := 0%float]> ∅)))))).

(** [employee_id] is bound as a parameter of the query. *)
Definition ytd_for_employee (st : Store) (employee_id : Z) (period_end : date)
  : result (gmap string float) :=
  if sqlite_integer employee_id then
    let slips := List.filter (in_ytd_query employee_id period_end) (payslips st) in
    ytd_loop zero_totals slips
  else Raise OverflowError.

(** The window of the year-to-date totals, as the specification words it:
    the payslips of the employee whose period end lies between January 1 of
    the year of [period_end] and [period_end], both included. *)
Definition in_ytd_window (employee_id : Z) (period_end : date) (s : Payslip.t) : Prop :=
  Payslip.employee_id s = employee_id
  /\ date_le (mkDate (year period_end) 1 1) (Payslip.period_end s)
  /\ date_le (Payslip.period_end s) period_end.

#[global] Instance in_ytd_window_dec employee_id period_end s :
  Decision (in_ytd_window employee_id period_end s).
Proof. unfold in_ytd_window, date_le. apply _. Defined.

(** The sum of one column over a list of payslips, from 0.0, in list order;
    there is none when a payslip has NULL in that column. *)
Definition sum_field (f : Payslip.t -> option float) (slips : list Payslip.t)
  : option float :=
  foldl (fun acc s => x ← acc; v ← f s; Some (x + v)%float) (Some 0%float) slips.

(** The seven summed columns of [s] are not NULL. *)
Definition amounts_present (s : Payslip.t) : Prop :=
  is_Some (Payslip.basic_pay s) /\ is_Some (Payslip.overtime_pay s)
  /\ is_Some (Payslip.allowances s) /\ is_Some (Payslip.tax s)
  /\ is_Some (Payslip.nis s) /\ is_Some (Payslip.other_deductions s)
  /\ is_Some (Payslip.net_pay s).

(** ** Requests and handlers

    A handler runs for an authenticated operator ([login_required] passed);
    it returns the store it committed and its response, or raises.  A
    request that raises commits nothing. *)

Inductive http_method := GET | POST.

Record Request := mkRequest {
  method : http_method;
  form : gmap string string;
  current_user_id : Z
}.

Inductive response :=
  | Redirect (endpoint : string) (arg : option Z)
  | RenderTemplate (name : string).

(** [request.form[key]]. *)
Definition form_getitem (form : gmap string string) (key : string) : result string :=
  of_option (BadRequestKeyError key) (form !! key).

(** Evaluating a name that no enclosing scope binds. *)
Definition unbound_name {A} (name : string) : result A := Raise (NameError name).

(** The store once the request is over. *)
Definition store_after (st : Store) (r : result (Store * response)) : Store :=
  match r with
  | Ok (st', _) => st'
  | Raise _ => st
  end.

Section Handlers.
Context {RT : Runtime}.

Definition parse_date (form : gmap string string) (key : string) : result date :=
  s ← form_getitem form key;
  of_option ValueError (date_fromisoformat s).

(** [employee_new]: [dob] is no parameter or local of the function and
    app.py binds no global of that name. *)
Definition employee_new (st : Store) (req : Request) : result (Store * response) :=
  match method req with
  | POST =>
      employee_id_code ← form_getitem (form req) "employee_id_code";
      first_name ← form_getitem (form req) "first_name";
      last_name ← form_getitem (form req) "last_name";
      department ← form_getitem (form req) "department";
      position ← form_getitem (form req) "position";
      email ← form_getitem (form req) "email";
      let nis_number := form req !! "nis_number" in
      let tax_reference := form req !! "tax_reference" in
      let bank_name := form req !! "bank_name" in
      let bank_account := form req !! "bank_account" in
      dob ← unbound_name "dob";
      let e := Employee.mk 0 (Some employee_id_code) (Some first_name) (Some last_name)
                 (Some department) (Some position) (Some email)
                 nis_number tax_reference bank_name bank_account dob in
      '(st', _) ← add_employee st e;
      Ok (st', Redirect "dashboard" None)
  | GET => Ok (st, RenderTemplate "employee_form.html")
  end.

Definition payslip_new (today : date) (utcnow : Z) (st : Store) (req : Request)
    (employee_id : Z) : result (Store * response) :=
  employee ← get_or_404 Employee.id (employees st) employee_id;
  match method req with
  | POST =>
      basic ← parse_float (form req) "basic_pay";
      overtime ← parse_float (form req) "overtime_pay";
      allowances ← parse_float (form req) "allowances";
      hours_worked ← parse_float (form req) "hours_worked";
      rate_per_hour ← parse_float (form req) "rate_per_hour";
      let '(gross, nis, tax, net) :=
        compute_payroll today employee basic overtime allowances hours_worked rate_per_hour in
      period_start ← parse_date (form req) "period_start";
      period_end ← parse_date (form req) "period_end";
      let p := Payslip.mk 0 (Employee.id employee) period_start period_end
                 (Some basic) (Some overtime) (Some allowances) (Some tax) (Some nis)
                 (Some 0%float) (Some net) (Some hours_worked) (Some rate_per_hour)
                 (current_user_id req) utcnow None in
      let '(st', k) := add_payslip st p in
      Ok (st', Redirect "payslip_view" (Some k))
  | GET => Ok (st, RenderTemplate "payslip_form.html")
  end.

Definition edit_payslip (st : Store) (req : Request) (payslip_id : Z)
  : result (Store * response) :=
  payslip ← get_or_404 Payslip.id (payslips st) payslip_id;
  match method req with
  | POST =>
      basic_pay ← parse_float (form req) "basic_pay";
      overtime_pay ← parse_float (form req) "overtime_pay";
      allowances ← parse_float (form req) "allowances";
      hours_worked ← parse_float (form req) "hours_worked";
      rate_per_hour ← parse_float (form req) "rate_per_hour";
      tax ← parse_float (form req) "tax";
      nis ← parse_float (form req) "nis";
      other_deductions ← parse_float (form req) "other_deductions";
      net_pay ← parse_float (form req) "net_pay";
      period_start ← parse_date (form req) "period_start";
      period_end ← parse_date (form req) "period_end";
      let p := Payslip.mk (Payslip.id payslip) (Payslip.employee_id payslip)
                 period_start period_end (Some basic_pay) (Some overtime_pay)
                 (Some allowances) (Some tax) (Some nis) (Some other_deductions)
                 (Some net_pay) (Some hours_worked) (Some rate_per_hour)
                 (Payslip.created_by payslip) (Payslip.created_at payslip)
                 (Payslip.date_of_birth payslip) in
      Ok (update_payslip st p, Redirect "payslip_view" (Some (Payslip.id payslip)))
  | GET => Ok (st, RenderTemplate "edit_payslip.html")
  end.

End Handlers.

(** ** Sample data, for running the handlers *)

Definition sample_employee : Employee.t :=
  Employee.mk 1 (Some "E001") (Some "Asha") (Some "Persaud") (Some "Guards")
    (Some "Officer") (Some "asha@example.com") None None None None
    (Some (mkDate 1980 5 17)).

Definition sample_store : Store := mkStore [sample_employee] [].

Definition sample_today : date := mkDate 2025 6 30.

Definition form_of (fields : list (string * string)) : gmap string string :=
  list_to_map fields.

(** A creation request whose period ends before it starts. *)
Definition reversed_period_request : Request :=
  mkRequest POST
    (form_of [("basic_pay", "100000"); ("other_deductions", "250");
              ("period_start", "2025-02-01"); ("period_end", "2025-01-01")]) 7.

Definition reversed_period_payslip : Payslip.t :=
  Payslip.mk 1 1 (mkDate 2025 2 1) (mkDate 2025 1 1)
    (Some 100000%float) (Some 0%float) (Some 0%float) (Some 0%float) (Some 5600%float)
    (Some 0%float) (Some 94400%float) (Some 0%float) (Some 0%float)
    7 0 None.

Definition march_payslip : Payslip.t :=
  Payslip.mk 1 1 (mkDate 2025 3 1) (mkDate 2025 3 31)
    (Some 100000%float) (Some 0%float) (Some 0%float) (Some 0%float) (Some 5600%float)
    (Some 0%float) (Some 94400%float) (Some 0%float) (Some 0%float)
    7 0 None.

Definition march_store : Store := mkStore [sample_employee] [march_payslip].

(** An edit of [march_payslip] which types the deductions in by hand and
    swaps the period dates. *)
Definition manual_edit_request : Request :=
  mkRequest POST
    (form_of [("basic_pay", "200000"); ("tax", "1"); ("nis", "2"); ("net_pay", "3");
              ("period_start", "2025-03-31"); ("period_end", "2025-03-01")]) 7.

Definition manual_edit_payslip : Payslip.t :=
  Payslip.mk 1 1 (mkDate 2025 3 31) (mkDate 2025 3 1)
    (Some 200000%float) (Some 0%float) (Some 0%float) (Some 1%float) (Some 2%float)
    (Some 0%float) (Some 3%float) (Some 0%float) (Some 0%float)
    7 0 None.

(** A complete employee form that reuses the code of [sample_employee]. *)
Definition duplicate_code_request : Request :=
  mkRequest POST
    (form_of [("employee_id_code", "E001"); ("first_name", "Ravi");
              ("last_name", "Singh"); ("department", "Guards");
              ("position", "Officer"); ("email", "ravi@example.com")]) 7.

Definition empty_post_request : Request := mkRequest POST ∅ 7.

(** Every payslip of the store has [period_start <= period_end]. *)
Definition periods_ordered (st : Store) : Prop :=
  forall p, p ∈ payslips st -> date_le (Payslip.period_start p) (Payslip.period_end p).

(** *** A runtime with the special values

    [reference_runtime] extended with [nan], [inf] and [-inf], which
    [float()] reads too. *)
Definition special_float (s : string) : option float :=
  if String.eqb s "nan" then Some nan
  else if String.eqb s "inf" then Some infinity
  else if String.eqb s "-inf" then Some neg_infinity
  else decimal_float s.

Definition special_runtime : Runtime :=
  {| float_of_str := special_float; date_fromisoformat := iso_date |}.

(** A creation request with an infinite basic pay: the net pay, infinity
    minus infinity, is NaN. *)
Definition infinite_pay_request : Request :=
  mkRequest POST
    (form_of [("basic_pay", "inf");
              ("period_start", "2025-04-01"); ("period_end", "2025-04-30")]) 7.

Definition infinite_pay_payslip : Payslip.t :=
  Payslip.mk 1 1 (mkDate 2025 4 1) (mkDate 2025 4 30)
    (Some infinity) (Some 0%float) (Some 0%float) (Some infinity) (Some infinity)
    (Some 0%float) None (Some 0%float) (Some 0%float)
    7 0 None.

(** An edit that submits NaN as the tax and a negative zero as the net pay. *)
Definition nan_edit_request : Request :=
  mkRequest POST
    (form_of [("basic_pay", "200000"); ("tax", "nan"); ("net_pay", "-0");
              ("period_start", "2025-03-01"); ("period_end", "2025-03-31")]) 7.

(** The six fields that [employee_new] reads with [request.form[...]], in
    the order it reads them, and the first of a list of fields that a form
    lacks. *)
Definition required_fields : list string :=
  ["employee_id_code"; "first_name"; "last_name"; "department"; "position"; "email"]%string.

Definition first_missing (form : gmap string string) (names : list string)
  : option string :=
  List.find (fun key => bool_decide (form !! key = None)) names.

(** A form with the code and the department only. *)
Definition two_fields_request : Request :=
  mkRequest POST (form_of [("employee_id_code", "E009"); ("department", "Guards")]) 7.

(** ** The remaining handlers: employee edit, payslip view, login, initdb *)

(** [datetime.strptime(s, "%Y-%m-%d").date()]; [None] stands for the
    [ValueError] of text that does not match the format. *)
Class Strptime := strptime_ymd : string -> option date.

Definition code_taken_by_other (self : Z) (code : option string)
    (rows : list Employee.t) : bool :=
  match code with
  | Some c =>
      existsb (fun r => negb (Employee.id r =? self)
                        && match Employee.employee_id_code r with
                           | Some c' => String.eqb c c'
                           | None => false
                           end) rows
  | None => false
  end.

(** [db.session.commit()] after the attributes of a loaded employee were
    set: the unique index refuses a code that another row holds. *)
Definition update_employee (st : Store) (e : Employee.t) : result Store :=
  if code_taken_by_other (Employee.id e) (Employee.employee_id_code e) (employees st)
  then Raise IntegrityError
  else Ok (mkStore ((fun r => if Employee.id r =? Employee.id e then e else r)
                      <$> employees st)
                   (payslips st)).

Section EmployeeEdit.
Context {SP : Strptime}.

(** The date of birth after [if dob_str: emp.date_of_birth = ...]. *)
Definition edited_dob (form : gmap string string) (emp : Employee.t)
  : result (option date) :=
  match form !! "date_of_birth" with
  | Some dob_str =>
      if String.eqb dob_str "" then Ok (Employee.date_of_birth emp)
      else d ← of_option ValueError (strptime_ymd dob_str); Ok (Some d)
  | None => Ok (Employee.date_of_birth emp)
  end.

Definition edit_employee (st : Store) (req : Request) (emp_id : Z)
  : result (Store * response) :=
  emp ← get_or_404 Employee.id (employees st) emp_id;
  match method req with
  | POST =>
      dob ← edited_dob (form req) emp;
      let e := Employee.mk (Employee.id emp)
                 (form req !! "employee_id_code") (form req !! "first_name")
                 (form req !! "last_name") (form req !! "department")
                 (form req !! "position") (form req !! "email")
                 (form req !! "nis_number") (form req !! "tax_reference")
                 (form req !! "bank_name") (form req !! "bank_account") dob in
      st' ← update_employee st e;
      Ok (st', Redirect "dashboard" None)
  | GET => Ok (st, RenderTemplate "edit_employee.html")
  end.

End EmployeeEdit.

(** [payslip_view]: the payslip and the totals handed to the template. *)
Definition payslip_view (st : Store) (payslip_id : Z)
  : result (Payslip.t * gmap string float) :=
  p ← get_or_404 Payslip.id (payslips st) payslip_id;
  ytd ← ytd_for_employee st (Payslip.employee_id p) (Payslip.period_end p);
  Ok (p, ytd).

Module User.
Record t := mk {
  id : Z;
  name : option string;
  email : option string;
  password_hash : option string;
  role : option string
}.
End User.

(** werkzeug's password hashing: [generate_password_hash] draws a salt,
    here the explicit argument; [check_password_hash] may raise on a stored
    value that is no hash. *)
Class PasswordHashing := {
  generate_password_hash : string -> string -> string;
  check_password_hash : option string -> string -> result bool
}.

Section Auth.
Context {PH : PasswordHashing}.

Definition admin_email : string := "admin@maximatic.com".

(** [User.query.filter_by(email=e).first()]. *)
Definition user_by_email (users : list User.t) (e : string) : option User.t :=
  List.find (fun u => bool_decide (User.email u = Some e)) users.

(** The [initdb] command on the user table. *)
Definition initdb (salt : string) (users : list User.t) : list User.t :=
  match user_by_email users admin_email with
  | Some _ => users
  | None =>
      users ++ [User.mk (next_id User.id users) (Some "Admin"%string) (Some admin_email)
                  (Some (generate_password_hash salt "ChangeMe123!"))
                  (Some "admin"%string)]
  end.

(** [login]: the user handed to [login_user] if any, the flashed messages
    and the response. *)
Definition login (users : list User.t) (req : Request)
  : result (option User.t * list string * response) :=
  match method req with
  | POST =>
      e ← form_getitem (form req) "email";
      match user_by_email users e with
      | Some u =>
          pw ← form_getitem (form req) "password";
          ok ← check_password_hash (User.password_hash u) pw;
          if ok : bool then Ok (Some u, [], Redirect "dashboard" None)
          else Ok (None, ["Invalid credentials"%string], RenderTemplate "login.html")
      | None => Ok (None, ["Invalid credentials"%string], RenderTemplate "login.html")
      end
  | GET => Ok (None, [], RenderTemplate "login.html")
  end.

End Auth.

(** *** Store invariants *)

(** No two employees share a non-null code (the unique index). *)
Definition codes_unique (rows : list Employee.t) : Prop :=
  forall i j r1 r2 c, rows !! i = Some r1 -> rows !! j = Some r2 ->
    Employee.employee_id_code r1 = Some c -> Employee.employee_id_code r2 = Some c ->
    i = j.

(** Primary keys are unique. *)
Definition payslip_ids_unique (st : Store) : Prop := NoDup (Payslip.id <$> payslips st).
Definition employee_ids_unique (st : Store) : Prop := NoDup (Employee.id <$> employees st).

(** A reference hashing for running [login] and [initdb]: the "hash" is the
    salt and the password side by side. *)
Definition toy_hashing : PasswordHashing :=
  {| generate_password_hash := fun salt pw => (salt ++ "$" ++ pw)%string;
     check_password_hash := fun h pw =>
       match h with
       | Some h => Ok (String.eqb (substring (String.length h - String.length pw)
                                             (String.length pw) h) pw)
       | None => Ok false
       end |}.

(** *** More sample data *)

Definition senior_employee : Employee.t :=
  Employee.mk 2 (Some "E002") (Some "Ravi") (Some "Singh") (Some "Guards")
    (Some "Supervisor") (Some "ravi@example.com") None None None None
    (Some (mkDate 1960 1 15)).

Definition two_employee_store : Store :=
  mkStore [sample_employee; senior_employee] [march_payslip].


(** An employee edit that keeps the code and sends nothing else but a name. *)
Definition rename_request : Request :=
  mkRequest POST (form_of [("employee_id_code", "E001"); ("first_name", "Aisha");
                           ("date_of_birth", "")]) 7.

Definition renamed_employee : Employee.t :=
  Employee.mk 1 (Some "E001") (Some "Aisha") None None None None None None None None
    (Some (mkDate 1980 5 17)).

(** A creation request without the period dates. *)
Definition no_dates_request : Request :=
  mkRequest POST (form_of [("basic_pay", "100000")]) 7.

Definition admin_user : User.t :=
  User.mk 1 (Some "Admin") (Some admin_email) (Some "s1$ChangeMe123!") (Some "admin").

Definition login_request (fields : list (string * string)) : Request :=
  mkRequest POST (form_of fields) 0.

Definition second_payslip : Payslip.t :=
  Payslip.mk 2 1 (mkDate 2025 2 1) (mkDate 2025 1 1)
    (Some 100000%float) (Some 0%float) (Some 0%float) (Some 0%float) (Some 5600%float)
    (Some 0%float) (Some 94400%float) (Some 0%float) (Some 0%float)
    7 0 None.

Definition unknown_email_request : Request :=
  login_request [("email", "nobody@example.com")].

Definition admin_login_request : Request :=
  login_request [("email", "admin@maximatic.com"); ("password", "ChangeMe123!")].

(** * Facts about binary64 arithmetic

    Derived from the specification of the primitive operations
    ([FloatAxioms]): comparison is antisymmetric, and the rounded difference
    of two numbers keeps the sign of the exact difference. *)

Lemma SFcompare_antisym (x y : spec_float) :
  SFcompare y x = option_map CompOpp (SFcompare x y).
Proof.
  destruct x as [sx|sx| |sx mx ex], y as [sy|sy| |sy my ey]; simpl;
    try reflexivity; try (destruct sx; reflexivity);
    try (destruct sy; reflexivity); try (destruct sx, sy; reflexivity).
  change (Pos.compare_cont Eq my mx) with (my ?= mx)%positive.
  change (Pos.compare_cont Eq mx my) with (mx ?= my)%positive.
  rewrite (Z.compare_antisym ey ex), (Pos.compare_antisym my mx).
  destruct sx, sy; try reflexivity; f_equal;
    destruct (ey ?= ex); simpl; try reflexivity;
    destruct (my ?= mx)%positive; reflexivity.
Qed.

Lemma float_leb_not_gt (x y : float) :
  (x <=? y)%float = true -> (y <? x)%float = false.
Proof.
  rewrite leb_spec, ltb_spec. unfold SFleb, SFltb.
  rewrite (SFcompare_antisym (Prim2SF x) (Prim2SF y)).
  destruct (SFcompare (Prim2SF x) (Prim2SF y)) as [[]|]; simpl; congruence.
Qed.

Lemma digits2_pos_bounds (m : positive) :
  2 ^ (Zpos (digits2_pos m) - 1) <= Zpos m < 2 ^ Zpos (digits2_pos m).
Proof.
  induction m as [m IH|m IH|]; simpl digits2_pos.
  - rewrite Pos2Z.inj_succ.
    replace (Z.succ (Z.pos (digits2_pos m)) - 1) with (Z.succ (Z.pos (digits2_pos m) - 1)) by lia.
    rewrite !Z.pow_succ_r by lia. lia.
  - rewrite Pos2Z.inj_succ.
    replace (Z.succ (Z.pos (digits2_pos m)) - 1) with (Z.succ (Z.pos (digits2_pos m) - 1)) by lia.
    rewrite !Z.pow_succ_r by lia. lia.
  - simpl. lia.
Qed.

Lemma shr_1_m (r : shr_record) : 0 <= shr_m r -> shr_m (shr_1 r) = shr_m r / 2.
Proof.
  destruct r as [m r s]. unfold shr_1, shr_m. intros Hm.
  destruct m as [|[p|p|]|p]; try lia; try reflexivity.
  - apply Z.div_unique with 1; lia.
  - apply Z.div_unique with 0; lia.
Qed.

Lemma iter_shr_1_m (p : positive) : forall r : shr_record,
  0 <= shr_m r -> shr_m (SpecFloat.iter_pos shr_1 p r) = shr_m r / 2 ^ Zpos p.
Proof.
  induction p as [p IH|p IH|]; intros r Hr; simpl SpecFloat.iter_pos.
  - assert (H1 : 0 <= shr_m (shr_1 r)) by (rewrite shr_1_m by easy; apply Z.div_pos; lia).
    assert (H2 : 0 <= shr_m (SpecFloat.iter_pos shr_1 p (shr_1 r)))
      by (rewrite IH by easy; apply Z.div_pos; lia).
    rewrite (IH _ H2), (IH _ H1), shr_1_m by easy.
    rewrite !Z.div_div by lia. f_equal.
    replace (Z.pos p~1) with (1 + Z.pos p + Z.pos p) by lia.
    rewrite !Z.pow_add_r by lia. lia.
  - assert (H2 : 0 <= shr_m (SpecFloat.iter_pos shr_1 p r))
      by (rewrite IH by easy; apply Z.div_pos; lia).
    rewrite (IH _ H2), (IH _ Hr).
    rewrite !Z.div_div by lia. f_equal.
    replace (Z.pos p~0) with (Z.pos p + Z.pos p) by lia.
    rewrite !Z.pow_add_r by lia. lia.
  - apply shr_1_m; assumption.
Qed.

(** a positive mantissa shifted right by fewer bits than it has stays positive *)
Lemma shr_fexp_pos (m : positive) (e : Z) (l : location) :
  emin <= e ->
  exists m' r s e', shr_fexp prec emax (Zpos m) e l = (Build_shr_record (Zpos m') r s, e')
                /\ emin <= e'.
Proof.
  intros He. unfold shr_fexp, shr.
  pose proof (digits2_pos_bounds m) as [Hlo _].
  set (d := digits2_pos m) in *. simpl Zdigits2. fold d.
  destruct (fexp prec emax (Z.pos d + e) - e) as [|p|p] eqn:En.
  1,3: destruct l as [|[]]; simpl; eauto 10.
  assert (Hp : Z.pos p < Z.pos d).
  { unfold fexp, emin, prec, emax in *. lia. }
  assert (H0 : 0 <= shr_m (shr_record_of_loc (Z.pos m) l)) by (destruct l as [|[]]; simpl; lia).
  pose proof (iter_shr_1_m p _ H0) as Hs.
  assert (Hm : shr_m (shr_record_of_loc (Z.pos m) l) = Z.pos m) by (destruct l as [|[]]; reflexivity).
  rewrite Hm in Hs.
  assert (1 <= Z.pos m / 2 ^ Z.pos p).
  { apply Z.div_le_lower_bound; [lia|].
    rewrite Z.mul_1_r. etransitivity; [|exact Hlo].
    apply Z.pow_le_mono_r; lia. }
  destruct (SpecFloat.iter_pos shr_1 p (shr_record_of_loc (Z.pos m) l)) as [m1 r1 s1].
  simpl in Hs. destruct m1 as [|m1|m1]; try lia.
  exists m1, r1, s1, (e + Z.pos p). split; [reflexivity|lia].
Qed.

Lemma round_nearest_even_pos (m : positive) (l : location) :
  exists m', round_nearest_even (Zpos m) l = Zpos m'.
Proof.
  destruct l as [|[]]; simpl; eauto.
  destruct m; simpl; eauto.
Qed.

Lemma binary_round_aux_sign (s : bool) (m : positive) (e : Z) (l : location) :
  emin <= e -> signed_nonzero s (binary_round_aux prec emax s (Zpos m) e l).
Proof.
  intros He. unfold binary_round_aux.
  destruct (shr_fexp_pos m e l He) as (m1 & r1 & s1 & e1 & -> & He1).
  destruct (round_nearest_even_pos m1 (loc_of_shr_record (Build_shr_record (Zpos m1) r1 s1)))
    as [m2 Hm2].
  simpl shr_m at 1. rewrite Hm2.
  destruct (shr_fexp_pos m2 e1 loc_Exact He1) as (m3 & r3 & s3 & e3 & -> & He3).
  simpl shr_m.
  destruct (e3 <=? emax - prec); reflexivity.
Qed.

Lemma shl_align_spec (m : positive) (e e' : Z) :
  e' <= e ->
  Zpos (fst (shl_align m e e')) = Zpos m * 2 ^ (e - e') /\
  snd (shl_align m e e') = e'.
Proof.
  intros Hle. unfold shl_align.
  destruct (e' - e) as [|d|d] eqn:Ed; simpl; try lia.
  - replace (e - e') with 0 by lia. split; lia.
  - replace (e - e') with (Zpos d) by lia. split; [|reflexivity].
    clear Ed Hle. revert m. induction d using Pos.peano_ind; intros m.
    + simpl. lia.
    + rewrite Pos.iter_succ, Pos2Z.inj_succ, Z.pow_succ_r by lia.
      rewrite Pos2Z.inj_xO, IHd. lia.
Qed.

Lemma binary_round_sign (s : bool) (m : positive) (e : Z) :
  emin <= e -> signed_nonzero s (binary_round prec emax s m e).
Proof.
  intros He. unfold binary_round.
  destruct (shl_align m e (fexp prec emax (Z.pos (digits2_pos m) + e))) as [mz ez] eqn:E.
  apply binary_round_aux_sign.
  unfold shl_align in E.
  destruct (fexp prec emax (Z.pos (digits2_pos m) + e) - e) eqn:E2; inversion E; subst; try lia.
  unfold fexp, emin, prec, emax in *. lia.
Qed.

Lemma bounded_canonical (m : positive) (e : Z) :
  bounded prec emax m e = true ->
  emin <= e /\ Zpos (digits2_pos m) <= prec /\ (emin < e -> Zpos (digits2_pos m) = prec).
Proof.
  unfold bounded, canonical_mantissa. intros [Hc _]%andb_true_iff.
  apply Z.eqb_eq in Hc. unfold fexp, emin, prec, emax in *. lia.
Qed.

(** Two canonical mantissas at different exponents: the one with the larger
    exponent is the larger number. *)
Lemma canonical_exp_lt (mx my : positive) (ex ey : Z) :
  bounded prec emax mx ex = true -> bounded prec emax my ey = true ->
  ex < ey -> Zpos mx < Zpos my * 2 ^ (ey - ex).
Proof.
  intros (Hex & Hdx & _)%bounded_canonical (Hey & _ & Hdy)%bounded_canonical Hlt.
  specialize (Hdy ltac:(lia)).
  pose proof (digits2_pos_bounds mx) as [_ Hx].
  pose proof (digits2_pos_bounds my) as [Hy _].
  rewrite Hdy in Hy.
  assert (2 ^ Z.pos (digits2_pos mx) <= 2 ^ prec) by (apply Z.pow_le_mono_r; lia).
  assert (2 ^ 1 <= 2 ^ (ey - ex)) by (apply Z.pow_le_mono_r; lia).
  assert (2 ^ prec = 2 ^ (prec - 1) * 2 ^ 1) by (rewrite <- Z.pow_add_r; [f_equal|..]; unfold prec; lia).
  nia.
Qed.

Lemma SFsub_lt_negative (x y : spec_float) :
  valid_binary x = true -> valid_binary y = true ->
  SFltb x y = true -> signed_nonzero true (SFsub prec emax x y).
Proof.
  unfold SFltb.
  destruct x as [sx|sx| |sx mx ex], y as [sy|sy| |sy my ey]; simpl;
    intros Vx Vy Hlt; try discriminate;
    try (destruct sx; try discriminate; reflexivity);
    try (destruct sy; try discriminate; reflexivity);
    try (destruct sx, sy; try discriminate; reflexivity).
  pose proof (bounded_canonical _ _ Vx) as (Hex & _).
  pose proof (bounded_canonical _ _ Vy) as (Hey & _).
  pose proof (Z.le_min_l ex ey) as Hzx. pose proof (Z.le_min_r ex ey) as Hzy.
  assert (Hez : emin <= Z.min ex ey) by (apply Z.min_glb; assumption).
  set (ez := Z.min ex ey) in *.
  destruct (shl_align_spec mx ex ez Hzx) as [HX _].
  destruct (shl_align_spec my ey ez Hzy) as [HY _].
  set (X := Zpos (fst (shl_align mx ex ez))) in *.
  set (Y := Zpos (fst (shl_align my ey ez))) in *.
  assert (HD : cond_Zopp sx X - cond_Zopp sy Y < 0).
  { change (Pos.compare_cont Eq mx my) with (mx ?= my)%positive in Hlt.
    destruct sx, sy; simpl; try discriminate; try lia.
    - (* both negative: x < y when the magnitude of x is the larger *)
      destruct (ex ?= ey) eqn:Ec; try discriminate.
      + apply Z.compare_eq in Ec. subst ey.
        replace (ex - ez) with 0 in * by lia. rewrite Z.mul_1_r in *.
        destruct (mx ?= my)%positive eqn:Em; try discriminate.
        change (Zpos mx > Zpos my) in Em. lia.
      + change (ex > ey) in Ec. apply Z.gt_lt in Ec.
        pose proof (canonical_exp_lt my mx ey ex Vy Vx Ec).
        replace (ey - ez) with 0 in * by lia. replace (ex - ez) with (ex - ey) in * by lia.
        lia.
    - destruct (ex ?= ey) eqn:Ec; try discriminate.
      + apply Z.compare_eq in Ec. subst ey.
        replace (ex - ez) with 0 in * by lia. rewrite Z.mul_1_r in *.
        destruct (mx ?= my)%positive eqn:Em; try discriminate.
        change (Zpos mx < Zpos my) in Em. lia.
      + change (ex < ey) in Ec.
        pose proof (canonical_exp_lt mx my ex ey Vx Vy Ec).
        replace (ex - ez) with 0 in * by lia. replace (ey - ez) with (ey - ex) in * by lia.
        lia. }
  unfold binary_normalize.
  destruct (cond_Zopp sx X - cond_Zopp sy Y) as [|d|d]; try lia.
  apply binary_round_sign. exact Hez.
Qed.

Lemma float_sub_lt_negative (x y : float) :
  (x <? y)%float = true -> (x - y <? 0)%float = true.
Proof.
  rewrite !ltb_spec, sub_spec. intros Hlt.
  pose proof (SFsub_lt_negative _ _ (Prim2SF_valid x) (Prim2SF_valid y) Hlt) as Hs.
  unfold SF64sub. change (Prim2SF 0) with (S754_zero false).
  destruct (SFsub prec emax (Prim2SF x) (Prim2SF y)) as [s|s| |s m e];
    simpl in Hs; try contradiction; subst; reflexivity.
Qed.

(** * The payroll calculator *)

Section Calculator.
Variables (today : date) (employee : Employee.t).
Variables (basic overtime allowances hours_worked rate_per_hour : float).

Lemma age_unknown_iff :
  Employee.age today employee = None <-> Employee.date_of_birth employee = None.
Proof.
  unfold Employee.age. destruct (Employee.date_of_birth employee); split; congruence.
Qed.

(** C1: the social-insurance deduction is [round(gross * 0.056, 2)], gross
    being the sum of the pay components with hours times rate, for a known
    age below 60, and 0 when the employee has no date of birth or is 60 or
    older. *)
Theorem compute_payroll_social_insurance :
  let gross := (basic + overtime + allowances + hours_worked * rate_per_hour)%float in
  let '(_, nis, _, _) :=
    compute_payroll today employee basic overtime allowances hours_worked rate_per_hour in
  (forall a, Employee.age today employee = Some a -> a < 60 ->
     nis = py_round2 (gross * 0.056)%float)
  /\ (Employee.date_of_birth employee = None -> nis = 0%float)
  /\ (forall a, Employee.age today employee = Some a -> 60 <= a -> nis = 0%float).
Proof.
  unfold compute_payroll. cbv beta iota zeta.
  repeat split.
  - intros a -> Ha. apply Z.ltb_lt in Ha. now rewrite Ha.
  - intros Hd%age_unknown_iff. now rewrite Hd.
  - intros a -> Ha. apply Z.ltb_ge in Ha. now rewrite Ha.
Qed.

(** C2: with gross the sum of the pay components with hours times rate,
    the tax is 0 for a gross of at most 130000 and [(gross - 130000) * 0.28]
    above it. *)
Theorem compute_payroll_tax :
  let gross := (basic + overtime + allowances + hours_worked * rate_per_hour)%float in
  let '(_, _, tax, _) :=
    compute_payroll today employee basic overtime allowances hours_worked rate_per_hour in
  ((gross <=? 130000)%float = true -> tax = 0%float)
  /\ ((130000 <? gross)%float = true -> tax = ((gross - 130000) * 0.28)%float).
Proof.
  unfold compute_payroll. cbv beta iota zeta.
  split.
  - intros Hle%float_leb_not_gt. now rewrite Hle.
  - intros Hgt. now rewrite Hgt.
Qed.

(** C3: gross is the sum of the pay components with hours times rate, net
    is gross minus the two deductions, and nothing floors it: deductions
    above gross give a negative net. *)
Theorem compute_payroll_gross_net :
  let '(gross, nis, tax, net) :=
    compute_payroll today employee basic overtime allowances hours_worked rate_per_hour in
  gross = (basic + overtime + allowances + hours_worked * rate_per_hour)%float
  /\ net = (gross - (nis + tax))%float
  /\ ((gross <? nis + tax)%float = true -> (net <? 0)%float = true).
Proof.
  unfold compute_payroll. cbv beta iota zeta.
  split; [reflexivity|]. split; [reflexivity|].
  apply float_sub_lt_negative.
Qed.

End Calculator.

(** The calculator on [sample_employee], aged 45 on [sample_today]. *)
Example compute_payroll_age_45 :
  Employee.age sample_today sample_employee = Some 45
  /\ compute_payroll sample_today sample_employee 100000 0 0 0 0
     = (100000, 5600, 0, 94400)%float.
Proof. split; vm_compute; reflexivity. Qed.

(** Without a date of birth nothing is withheld for social insurance. *)
Example compute_payroll_age_unknown :
  compute_payroll sample_today
    (Employee.mk 2 (Some "E002") None None None None None None None None None None)
    100000 0 0 0 0
  = (100000, 0, 0, 100000)%float.
Proof. vm_compute. reflexivity. Qed.

(** A negative gross: the deduction exceeds it and the net stays negative. *)
Example compute_payroll_negative_net :
  let '(gross, nis, tax, net) :=
    compute_payroll sample_today sample_employee (-100) 0 0 0 0 in
  (gross <? nis + tax)%float = true /\ (net <? 0)%float = true.
Proof. vm_compute. split; reflexivity. Qed.

(** * The year-to-date aggregator *)

Lemma amounts_present_dec (s : Payslip.t) : amounts_present s \/ ~ amounts_present s.
Proof.
  unfold amounts_present.
  destruct (Payslip.basic_pay s), (Payslip.overtime_pay s), (Payslip.allowances s),
    (Payslip.tax s), (Payslip.nis s), (Payslip.other_deductions s), (Payslip.net_pay s);
    first [ left; repeat split; eexists; reflexivity
          | right; intros (H1 & H2 & H3 & H4 & H5 & H6 & H7);
            repeat match goal with H : is_Some None |- _ => destruct H; discriminate end ].
Qed.

(** One pass of the loop: with the seven amounts there it adds each to its
    total; with one of them NULL it raises. *)
Lemma ytd_step_present (totals : gmap string float) (s : Payslip.t) :
  amounts_present s ->
  exists totals', ytd_step totals s = Ok totals'
    /\ dom totals' = dom totals
    /\ totals' !! "basic_pay"
       = (x ← totals !! "basic_pay"; v ← Payslip.basic_pay s; Some (x + v)%float)
    /\ totals' !! "overtime_pay"
       = (x ← totals !! "overtime_pay"; v ← Payslip.overtime_pay s; Some (x + v)%float)
    /\ totals' !! "allowances"
       = (x ← totals !! "allowances"; v ← Payslip.allowances s; Some (x + v)%float)
    /\ totals' !! "tax"
       = (x ← totals !! "tax"; v ← Payslip.tax s; Some (x + v)%float)
    /\ totals' !! "nis"
       = (x ← totals !! "nis"; v ← Payslip.nis s; Some (x + v)%float)
    /\ totals' !! "other_deductions"
       = (x ← totals !! "other_deductions"; v ← Payslip.other_deductions s;
          Some (x + v)%float)
    /\ totals' !! "net_pay"
       = (x ← totals !! "net_pay"; v ← Payslip.net_pay s; Some (x + v)%float).
Proof.
  unfold amounts_present, ytd_step, dict_iadd.
  intros ([b ->] & [o ->] & [a ->] & [t ->] & [n ->] & [od ->] & [np ->]).
  cbn [mbind result_bind]. eexists. split; [reflexivity|].
  split; [now rewrite !dom_alter_L|].
  repeat split;
    repeat (rewrite lookup_alter_ne by discriminate);
    rewrite lookup_alter_eq;
    repeat (rewrite lookup_alter_ne by discriminate);
    match goal with |- context [totals !! ?k] => destruct (totals !! k) end; reflexivity.
Qed.

Lemma ytd_step_null (totals : gmap string float) (s : Payslip.t) :
  ~ amounts_present s -> ytd_step totals s = Raise TypeError.
Proof.
  unfold amounts_present, ytd_step, dict_iadd. intros Hn.
  destruct (Payslip.basic_pay s); [|reflexivity].
  destruct (Payslip.overtime_pay s); [|reflexivity].
  destruct (Payslip.allowances s); [|reflexivity].
  destruct (Payslip.tax s); [|reflexivity].
  destruct (Payslip.nis s); [|reflexivity].
  destruct (Payslip.other_deductions s); [|reflexivity].
  destruct (Payslip.net_pay s); [|reflexivity].
  exfalso. apply Hn. repeat split; eexists; reflexivity.
Qed.

(** The loop over payslips that all have their amounts. *)
Lemma ytd_loop_present (slips : list Payslip.t) :
  (forall s, s ∈ slips -> amounts_present s) ->
  forall totals, exists totals', ytd_loop totals slips = Ok totals'
    /\ dom totals' = dom totals.
Proof.
  induction slips as [|s slips IH]; intros Hall totals; [now exists totals|].
  destruct (ytd_step_present totals s) as (t1 & H1 & Hd1 & _); [apply Hall; left|].
  destruct (IH (fun x Hx => Hall x (list_elem_of_further _ _ _ Hx)) t1) as (t2 & H2 & Hd2).
  exists t2. cbn [ytd_loop]. rewrite H1. cbn [mbind result_bind].
  split; [exact H2|congruence].
Qed.

(** The loop raises as soon as a payslip lacks an amount. *)
Lemma ytd_loop_null (slips : list Payslip.t) :
  (exists s, s ∈ slips /\ ~ amounts_present s) ->
  forall totals, ytd_loop totals slips = Raise TypeError.
Proof.
  induction slips as [|s slips IH]; intros (x & Hx & Hn) totals.
  - now apply elem_of_nil in Hx.
  - cbn [ytd_loop]. destruct (amounts_present_dec s) as [Hs|Hs].
    + destruct (ytd_step_present totals s Hs) as (t1 & -> & _). cbn [mbind result_bind].
      apply IH. apply elem_of_cons in Hx as [->|Hx]; [contradiction|eauto].
    + now rewrite (ytd_step_null totals s Hs).
Qed.

Lemma ytd_loop_lookup (key : string) (f : Payslip.t -> option float) :
  (forall totals s totals', ytd_step totals s = Ok totals' ->
     totals' !! key = (x ← totals !! key; v ← f s; Some (x + v)%float)) ->
  forall slips totals totals', ytd_loop totals slips = Ok totals' ->
    totals' !! key
    = foldl (fun acc s => x ← acc; v ← f s; Some (x + v)%float) (totals !! key) slips.
Proof.
  intros Hstep. induction slips as [|s slips IH]; intros totals totals' H.
  - cbn in H. now injection H as ->.
  - cbn [ytd_loop] in H. destruct (ytd_step totals s) as [t1|] eqn:E1; [|discriminate].
    cbn [mbind result_bind] in H. cbn [foldl].
    rewrite (IH _ _ H), (Hstep _ _ _ E1). reflexivity.
Qed.

Lemma ytd_step_lookup (totals totals' : gmap string float) (s : Payslip.t) :
  ytd_step totals s = Ok totals' ->
  totals' !! "basic_pay"
    = (x ← totals !! "basic_pay"; v ← Payslip.basic_pay s; Some (x + v)%float)
  /\ totals' !! "overtime_pay"
     = (x ← totals !! "overtime_pay"; v ← Payslip.overtime_pay s; Some (x + v)%float)
  /\ totals' !! "allowances"
     = (x ← totals !! "allowances"; v ← Payslip.allowances s; Some (x + v)%float)
  /\ totals' !! "tax"
     = (x ← totals !! "tax"; v ← Payslip.tax s; Some (x + v)%float)
  /\ totals' !! "nis"
     = (x ← totals !! "nis"; v ← Payslip.nis s; Some (x + v)%float)
  /\ totals' !! "other_deductions"
     = (x ← totals !! "other_deductions"; v ← Payslip.other_deductions s;
        Some (x + v)%float)
  /\ totals' !! "net_pay"
     = (x ← totals !! "net_pay"; v ← Payslip.net_pay s; Some (x + v)%float).
Proof.
  intros H. destruct (amounts_present_dec s) as [Hs|Hs].
  - destruct (ytd_step_present totals s Hs) as (t & Ht & _ & Hl).
    rewrite H in Ht. injection Ht as <-. exact Hl.
  - rewrite (ytd_step_null totals s Hs) in H. discriminate.
Qed.

Lemma sqlite_integer_spec (k : Z) :
  (sqlite_integer k = true <-> - 2 ^ 63 <= k < 2 ^ 63)
  /\ (sqlite_integer k = false <-> k < - 2 ^ 63 \/ 2 ^ 63 <= k).
Proof.
  unfold sqlite_integer.
  destruct (Z.leb_spec (- 2 ^ 63) k), (Z.ltb_spec k (2 ^ 63)); cbn;
    split; split; intros; try discriminate; try reflexivity; lia.
Qed.

Section Aggregator.
Variables (st : Store) (employee_id : Z) (period_end : date).

Lemma in_ytd_query_spec (s : Payslip.t) :
  in_ytd_query employee_id period_end s = true <-> in_ytd_window employee_id period_end s.
Proof.
  unfold in_ytd_query, in_ytd_window, start_of_year_of, date_le.
  rewrite !andb_true_iff, Z.eqb_eq. tauto.
Qed.

Lemma ytd_query_filter (l : list Payslip.t) :
  List.filter (in_ytd_query employee_id period_end) l
  = filter (in_ytd_window employee_id period_end) l.
Proof.
  induction l as [|s l IH]; [reflexivity|].
  cbn [List.filter]. rewrite filter_cons, IH.
  destruct (in_ytd_query employee_id period_end s) eqn:E.
  - rewrite decide_True by now apply in_ytd_query_spec. reflexivity.
  - rewrite decide_False; [reflexivity|].
    intros H%in_ytd_query_spec. congruence.
Qed.

Lemma ytd_window_empty (l : list Payslip.t) :
  (forall s, s ∈ l -> ~ in_ytd_window employee_id period_end s) ->
  filter (in_ytd_window employee_id period_end) l = [].
Proof.
  induction l as [|s l IH]; intros Hnone; [reflexivity|].
  rewrite filter_cons, decide_False by (apply Hnone; left).
  apply IH. intros s' Hs'. apply Hnone. now right.
Qed.

(** C4, amended: for an employee identifier that fits SQLite's 64-bit
    integer, when every payslip of the window has its seven amounts, each
    total is the sum of its column over exactly the employee's payslips
    whose period end lies in the window from January 1 of the year of
    [period_end] to [period_end], both included; with no payslip in the
    window every total is zero.  (A payslip of the window with a NULL amount
    makes the aggregation raise, and so does an identifier beyond 64
    bits.) *)
Theorem ytd_for_employee_sums :
  let window := filter (in_ytd_window employee_id period_end) (payslips st) in
  let outcome := ytd_for_employee st employee_id period_end in
  (forall s, s ∈ window <->
     s ∈ payslips st
     /\ Payslip.employee_id s = employee_id
     /\ date_le (mkDate (year period_end) 1 1) (Payslip.period_end s)
     /\ date_le (Payslip.period_end s) period_end)
  /\ (employee_id < - 2 ^ 63 \/ 2 ^ 63 <= employee_id -> outcome = Raise OverflowError)
  /\ (- 2 ^ 63 <= employee_id < 2 ^ 63 ->
      ((forall s, s ∈ window -> amounts_present s) ->
       exists totals, outcome = Ok totals
         /\ (forall key, key ∈ dom zero_totals -> is_Some (totals !! key))
         /\ totals !! "basic_pay" = sum_field Payslip.basic_pay window
         /\ totals !! "overtime_pay" = sum_field Payslip.overtime_pay window
         /\ totals !! "allowances" = sum_field Payslip.allowances window
         /\ totals !! "tax" = sum_field Payslip.tax window
         /\ totals !! "nis" = sum_field Payslip.nis window
         /\ totals !! "other_deductions" = sum_field Payslip.other_deductions window
         /\ totals !! "net_pay" = sum_field Payslip.net_pay window)
      /\ ((exists s, s ∈ window /\ ~ amounts_present s) -> outcome = Raise TypeError)
      /\ ((forall s, s ∈ payslips st -> ~ in_ytd_window employee_id period_end s) ->
          outcome = Ok zero_totals
          /\ forall key, key ∈ dom zero_totals -> zero_totals !! key = Some 0%float)).
Proof.
  intros window outcome.
  split.
  { intros s. subst window. rewrite list_elem_of_filter. unfold in_ytd_window. tauto. }
  split.
  { intros Hk%sqlite_integer_spec. subst outcome. unfold ytd_for_employee. now rewrite Hk. }
  intros Hk%sqlite_integer_spec.
  assert (Hout : outcome = ytd_loop zero_totals window).
  { subst outcome window. unfold ytd_for_employee. now rewrite Hk, ytd_query_filter. }
  split; [|split].
  - intros Hall. destruct (ytd_loop_present window Hall zero_totals) as (totals & Ht & Hd).
    exists totals. rewrite Hout. split; [exact Ht|]. split.
    { intros key Hkey. apply elem_of_dom. now rewrite Hd. }
    unfold sum_field.
    assert (Hkey : forall key f,
              (forall t s t', ytd_step t s = Ok t' ->
                 t' !! key = (x ← t !! key; v ← f s; Some (x + v)%float)) ->
              zero_totals !! key = Some 0%float ->
              totals !! key
              = foldl (fun acc s => x ← acc; v ← f s; Some (x + v)%float) (Some 0%float)
                  window).
    { intros key f Hstep <-. now apply ytd_loop_lookup. }
    repeat split; (apply Hkey; [|reflexivity]); intros t s t' Hs;
      destruct (ytd_step_lookup t t' s Hs) as (H1 & H2 & H3 & H4 & H5 & H6 & H7);
      assumption.
  - intros Hnull. rewrite Hout. now apply ytd_loop_null.
  - intros Hnone.
    assert (Hw : window = []) by (subst window; apply ytd_window_empty, Hnone).
    rewrite Hout, Hw. split; [reflexivity|].
    intros key Hkey. unfold zero_totals in *.
    rewrite !dom_insert_L, dom_empty_L in Hkey.
    repeat (apply elem_of_union in Hkey as [Hkey|Hkey];
            [apply elem_of_singleton in Hkey; subst key; reflexivity|]).
    now apply elem_of_empty in Hkey.
Qed.

End Aggregator.

(** C4, as stated, fails: a creation with an infinite basic pay leaves a
    payslip whose net pay, NaN, is held as NULL, and on that store the
    aggregation returns no totals: it raises [TypeError]. *)
Lemma ytd_raises_on_null_amount :
  payslip_new (RT := special_runtime) sample_today 0 sample_store infinite_pay_request 1
  = Ok (mkStore [sample_employee] [infinite_pay_payslip], Redirect "payslip_view" (Some 1))
  /\ in_ytd_window 1 (mkDate 2025 4 30) infinite_pay_payslip
  /\ ytd_for_employee (mkStore [sample_employee] [infinite_pay_payslip]) 1 (mkDate 2025 4 30)
     = Raise TypeError
  /\ forall totals,
       ytd_for_employee (mkStore [sample_employee] [infinite_pay_payslip]) 1
         (mkDate 2025 4 30) <> Ok totals.
Proof.
  assert (H : ytd_for_employee (mkStore [sample_employee] [infinite_pay_payslip]) 1
                (mkDate 2025 4 30) = Raise TypeError) by (vm_compute; reflexivity).
  split; [vm_compute; reflexivity|]. split; [repeat split|].
  rewrite H. split; [reflexivity|discriminate].
Qed.

(** * Form parsing *)

Section FormParsing.
Context {RT : Runtime}.

Lemma parse_float_eq (form : gmap string string) (name : string) :
  parse_float form name
  = Ok (match get_or_0 form name with
        | Some s => default 0%float (float_of_str s)
        | None => 0%float
        end).
Proof.
  unfold parse_float, py_float.
  destruct (get_or_0 form name) as [s|]; [|reflexivity].
  destruct (float_of_str s); reflexivity.
Qed.

(** C8: [parse_float] never raises; it returns 0 for an absent or empty
    field and for text that [float()] refuses, and the parsed number
    otherwise. *)
Theorem parse_float_never_raises (form : gmap string string) (name : string) :
  exists v, parse_float form name = Ok v
    /\ (form !! name = None \/ form !! name = Some ""%string -> v = 0%float)
    /\ (forall s, form !! name = Some s -> float_of_str s = None -> v = 0%float)
    /\ (forall s x, form !! name = Some s -> s <> ""%string ->
          float_of_str s = Some x -> v = x).
Proof.
  rewrite parse_float_eq. eexists. split; [reflexivity|].
  unfold get_or_0. repeat split.
  - intros [-> | ->]; reflexivity.
  - intros s -> Hs. destruct (String.eqb s ""); [reflexivity|]. now rewrite Hs.
  - intros s x -> Hne Hs.
    destruct (String.eqb_spec s ""); [contradiction|]. now rewrite Hs.
Qed.

End FormParsing.

(** * Handlers *)

(** The [Float] column: NaN is not held, a zero comes back as 0.0, every
    other number comes back as it went in; what is held compares equal to
    what was written. *)
Lemma sqlite_real_spec (x : float) :
  ((x =? x)%float = false -> sqlite_real x = None)
  /\ ((x =? x)%float = true ->
      exists y, sqlite_real x = Some y /\ (y =? x)%float = true
        /\ ((x =? 0)%float = false -> y = x)).
Proof.
  unfold sqlite_real. rewrite !FloatAxioms.eqb_spec. change (Prim2SF 0) with (S754_zero false).
  destruct (Prim2SF x) as [s|s| |s m e] eqn:E; split; intros H.
  - reflexivity || (destruct s; discriminate).
  - exists 0%float. split; [reflexivity|]. split; [|destruct s; discriminate].
    rewrite FloatAxioms.eqb_spec. change (Prim2SF 0) with (S754_zero false). rewrite E.
    destruct s; reflexivity.
  - destruct s; discriminate.
  - exists x. split; [reflexivity|]. split; [|reflexivity].
    rewrite FloatAxioms.eqb_spec, E. exact H.
  - reflexivity.
  - discriminate.
  - exfalso. revert H. unfold SFeqb, SFcompare.
    rewrite Z.compare_refl, Pos.compare_cont_refl. destruct s; discriminate.
  - exists x. split; [reflexivity|]. split; [|reflexivity].
    rewrite FloatAxioms.eqb_spec, E. exact H.
Qed.

Lemma float_column_stored (v : option float) : float_column (float_column v) = float_column v.
Proof.
  destruct v as [x|]; [|reflexivity]. cbn. unfold sqlite_real at 2.
  destruct (Prim2SF x) as [s|s| |s m e] eqn:E; try reflexivity;
    cbn; unfold sqlite_real; rewrite E; reflexivity.
Qed.

Lemma as_stored_stored (p : Payslip.t) : as_stored (as_stored p) = as_stored p.
Proof. unfold as_stored. cbn. now rewrite !float_column_stored. Qed.

Section HandlerFacts.
Context {RT : Runtime}.

Lemma get_or_404_found {A} (key : A -> Z) (rows : list A) (k : Z) (r : A) :
  get_or_404 key rows k = Ok r -> r ∈ rows /\ key r = k.
Proof.
  unfold get_or_404. destruct (sqlite_integer k); [|discriminate].
  destruct (List.find _ rows) as [r'|] eqn:E; [|discriminate].
  intros [= <-]. apply find_some in E as [Hin Hk].
  split; [now apply list_elem_of_In | now apply Z.eqb_eq].
Qed.

(** A successful creation: what was looked up, parsed and appended. *)
Lemma payslip_new_created (today : date) (utcnow : Z) (st st' : Store) (req : Request)
    (employee_id k : Z) :
  payslip_new today utcnow st req employee_id = Ok (st', Redirect "payslip_view" (Some k)) ->
  exists employee b o a h r ps pe,
    get_or_404 Employee.id (employees st) employee_id = Ok employee
    /\ parse_float (form req) "basic_pay" = Ok b
    /\ parse_float (form req) "overtime_pay" = Ok o
    /\ parse_float (form req) "allowances" = Ok a
    /\ parse_float (form req) "hours_worked" = Ok h
    /\ parse_float (form req) "rate_per_hour" = Ok r
    /\ parse_date (form req) "period_start" = Ok ps
    /\ parse_date (form req) "period_end" = Ok pe
    /\ k = next_id Payslip.id (payslips st)
    /\ st' = mkStore (employees st)
               (payslips st ++
                  [let '(_, nis, tax, net) := compute_payroll today employee b o a h r in
                   Payslip.mk k (Employee.id employee) ps pe
                     (sqlite_real b) (sqlite_real o) (sqlite_real a) (sqlite_real tax)
                     (sqlite_real nis) (Some 0%float) (sqlite_real net)
                     (sqlite_real h) (sqlite_real r)
                     (current_user_id req) utcnow None]).
Proof.
  unfold payslip_new.
  destruct (get_or_404 Employee.id (employees st) employee_id) as [employee|] eqn:Ee;
    [|discriminate]. cbn [mbind result_bind].
  destruct (method req); [discriminate|].
  rewrite !parse_float_eq. cbn [mbind result_bind].
  destruct (compute_payroll _ _ _ _ _ _ _) as [[[gross nis] tax] net] eqn:Ec.
  destruct (parse_date (form req) "period_start") as [ps|]; [|discriminate].
  destruct (parse_date (form req) "period_end") as [pe|]; [|discriminate].
  cbn [mbind result_bind add_payslip with_id]. intros [= <- <-].
  eexists employee, _, _, _, _, _, ps, pe.
  repeat (split; [reflexivity|]). rewrite Ec. reflexivity.
Qed.

(** A creation for a known employee with two readable dates goes through. *)
Lemma payslip_new_succeeds (today : date) (utcnow : Z) (st : Store) (req : Request)
    (employee_id : Z) (employee : Employee.t) (ps pe : date) :
  method req = POST ->
  get_or_404 Employee.id (employees st) employee_id = Ok employee ->
  parse_date (form req) "period_start" = Ok ps ->
  parse_date (form req) "period_end" = Ok pe ->
  exists st', payslip_new today utcnow st req employee_id
              = Ok (st', Redirect "payslip_view" (Some (next_id Payslip.id (payslips st)))).
Proof.
  intros Hpost He Hps Hpe. unfold payslip_new.
  rewrite He. cbn [mbind result_bind]. rewrite Hpost, !parse_float_eq.
  cbn [mbind result_bind].
  destruct (compute_payroll _ _ _ _ _ _ _) as [[[gross nis] tax] net].
  rewrite Hps, Hpe. cbn [mbind result_bind add_payslip]. eexists. reflexivity.
Qed.

(** A successful edit: what was looked up, parsed and written back. *)
Lemma edit_payslip_saved (st st' : Store) (req : Request) (payslip_id : Z) (resp : response) :
  method req = POST ->
  edit_payslip st req payslip_id = Ok (st', resp) ->
  exists old b o a h r t n od np ps pe,
    get_or_404 Payslip.id (payslips st) payslip_id = Ok old
    /\ parse_float (form req) "basic_pay" = Ok b
    /\ parse_float (form req) "overtime_pay" = Ok o
    /\ parse_float (form req) "allowances" = Ok a
    /\ parse_float (form req) "hours_worked" = Ok h
    /\ parse_float (form req) "rate_per_hour" = Ok r
    /\ parse_float (form req) "tax" = Ok t
    /\ parse_float (form req) "nis" = Ok n
    /\ parse_float (form req) "other_deductions" = Ok od
    /\ parse_float (form req) "net_pay" = Ok np
    /\ parse_date (form req) "period_start" = Ok ps
    /\ parse_date (form req) "period_end" = Ok pe
    /\ st' = update_payslip st
               (Payslip.mk (Payslip.id old) (Payslip.employee_id old) ps pe
                  (Some b) (Some o) (Some a) (Some t) (Some n) (Some od) (Some np)
                  (Some h) (Some r)
                  (Payslip.created_by old) (Payslip.created_at old) (Payslip.date_of_birth old))
    /\ resp = Redirect "payslip_view" (Some (Payslip.id old)).
Proof.
  intros Hpost. unfold edit_payslip.
  destruct (get_or_404 Payslip.id (payslips st) payslip_id) as [old|] eqn:Eo; [|discriminate].
  cbn [mbind result_bind]. rewrite Hpost, !parse_float_eq. cbn [mbind result_bind].
  destruct (parse_date (form req) "period_start") as [ps|]; [|discriminate].
  destruct (parse_date (form req) "period_end") as [pe|]; [|discriminate].
  cbn [mbind result_bind]. intros [= <- <-].
  eexists old, _, _, _, _, _, _, _, _, _, ps, pe.
  repeat (split; [reflexivity|]). reflexivity.
Qed.

(** An edit of a known payslip with two readable dates goes through. *)
Lemma edit_payslip_succeeds (st : Store) (req : Request) (payslip_id : Z)
    (old : Payslip.t) (ps pe : date) :
  method req = POST ->
  get_or_404 Payslip.id (payslips st) payslip_id = Ok old ->
  parse_date (form req) "period_start" = Ok ps ->
  parse_date (form req) "period_end" = Ok pe ->
  exists st', edit_payslip st req payslip_id
              = Ok (st', Redirect "payslip_view" (Some payslip_id)).
Proof.
  intros Hpost Ho Hps Hpe. unfold edit_payslip.
  rewrite Ho. cbn [mbind result_bind]. rewrite Hpost, !parse_float_eq.
  cbn [mbind result_bind]. rewrite Hps, Hpe. cbn [mbind result_bind].
  apply get_or_404_found in Ho as [_ ->]. eexists. reflexivity.
Qed.

(** After an update the rows carrying the key of [p] are [p] as stored. *)
Lemma update_payslip_row (st : Store) (p q : Payslip.t) :
  q ∈ payslips (update_payslip st p) -> Payslip.id q = Payslip.id p -> q = as_stored p.
Proof.
  unfold update_payslip. cbn [payslips].
  intros (r & -> & _)%list_elem_of_fmap Hid.
  destruct (Payslip.id r =? Payslip.id p) eqn:E; [reflexivity|].
  apply Z.eqb_neq in E. contradiction.
Qed.

Lemma update_payslip_present (st : Store) (old p : Payslip.t) :
  old ∈ payslips st -> Payslip.id p = Payslip.id old ->
  as_stored p ∈ payslips (update_payslip st p).
Proof.
  intros Hin Hid. unfold update_payslip. cbn [payslips].
  apply list_elem_of_fmap. exists old. split; [|exact Hin].
  rewrite Hid, Z.eqb_refl. reflexivity.
Qed.

End HandlerFacts.

(** * Payslip creation and edit *)

Lemma float_neq (x y : float) : Prim2SF x <> Prim2SF y -> x <> y.
Proof. intros Hne ->. now apply Hne. Qed.

Lemma reversed_period_created :
  payslip_new (RT := reference_runtime) sample_today 0 sample_store reversed_period_request 1
  = Ok (mkStore [sample_employee] [reversed_period_payslip], Redirect "payslip_view" (Some 1)).
Proof. vm_compute. reflexivity. Qed.

Lemma manual_edit_saved :
  edit_payslip (RT := reference_runtime) march_store manual_edit_request 1
  = Ok (mkStore [sample_employee] [manual_edit_payslip], Redirect "payslip_view" (Some 1)).
Proof. vm_compute. reflexivity. Qed.

Lemma periods_ordered_singleton (es : list Employee.t) (p : Payslip.t) :
  periods_ordered (mkStore es [p])
  <-> date_leb (Payslip.period_start p) (Payslip.period_end p) = true.
Proof.
  unfold periods_ordered, date_le. cbn [payslips]. split.
  - intros H. apply H. left.
  - intros H q ->%list_elem_of_singleton. exact H.
Qed.

(** C5, as stated, fails: a creation, and an edit of a well-ordered
    payslip, each leave a stored payslip whose period starts after it
    ends. *)
Lemma payslip_period_order_violated :
  (periods_ordered sample_store
   /\ exists st' resp,
        payslip_new (RT := reference_runtime) sample_today 0 sample_store
          reversed_period_request 1 = Ok (st', resp)
        /\ ~ periods_ordered st')
  /\ (periods_ordered march_store
      /\ exists st' resp,
           edit_payslip (RT := reference_runtime) march_store manual_edit_request 1
             = Ok (st', resp)
           /\ ~ periods_ordered st').
Proof.
  split; split.
  - intros p Hp. cbn in Hp. now apply elem_of_nil in Hp.
  - eexists _, _. split; [exact reversed_period_created|].
    rewrite periods_ordered_singleton. vm_compute. discriminate.
  - apply periods_ordered_singleton. vm_compute. reflexivity.
  - eexists _, _. split; [exact manual_edit_saved|].
    rewrite periods_ordered_singleton. vm_compute. discriminate.
Qed.

Section PayslipWrites.
Context {RT : Runtime}.
Variables (today : date) (utcnow : Z) (st st' : Store) (req : Request).

(** C5, amended: creation and edit store the submitted period dates as
    parsed, in whatever order they come; no comparison is made. *)
Theorem payslip_period_stored_as_submitted (k : Z) :
  (forall employee_id,
     payslip_new today utcnow st req employee_id
       = Ok (st', Redirect "payslip_view" (Some k)) ->
     exists p, payslips st' = payslips st ++ [p] /\ Payslip.id p = k
       /\ parse_date (form req) "period_start" = Ok (Payslip.period_start p)
       /\ parse_date (form req) "period_end" = Ok (Payslip.period_end p))
  /\ (forall resp,
        method req = POST -> edit_payslip st req k = Ok (st', resp) ->
        (exists p, p ∈ payslips st' /\ Payslip.id p = k)
        /\ forall p, p ∈ payslips st' -> Payslip.id p = k ->
             parse_date (form req) "period_start" = Ok (Payslip.period_start p)
             /\ parse_date (form req) "period_end" = Ok (Payslip.period_end p)).
Proof.
  split.
  - intros employee_id H.
    apply payslip_new_created in H
      as (employee & b & o & a & h & r & ps & pe & _ & _ & _ & _ & _ & _ & Hps & Hpe & Hk & ->).
    destruct (compute_payroll today employee b o a h r) as [[[gross nis] tax] net].
    eexists. cbn [payslips Payslip.id Payslip.period_start Payslip.period_end].
    repeat split; eauto.
  - intros resp Hpost H.
    apply edit_payslip_saved in H
      as (old & b & o & a & h & r & t & n & od & np & ps & pe & Hold & _ & _ & _ & _ & _
          & _ & _ & _ & _ & Hps & Hpe & -> & _); [|exact Hpost].
    apply get_or_404_found in Hold as [Hin Hid]. split.
    + eexists. split; [eapply update_payslip_present; [exact Hin|reflexivity]|exact Hid].
    + intros p Hp Hpk.
      apply update_payslip_row in Hp as ->; [|cbn [Payslip.id]; congruence].
      split; assumption.
Qed.

(** C10: a created payslip has [other_deductions] 0, whatever the form
    submits under that name. *)
Theorem payslip_new_other_deductions_zero (employee_id k : Z) :
  payslip_new today utcnow st req employee_id = Ok (st', Redirect "payslip_view" (Some k)) ->
  (exists p, payslips st' = payslips st ++ [p] /\ Payslip.id p = k
     /\ Payslip.other_deductions p = Some 0%float)
  /\ forall v : string,
       payslip_new today utcnow st
         (mkRequest (method req) (<["other_deductions" := v]> (form req)) (current_user_id req))
         employee_id
       = Ok (st', Redirect "payslip_view" (Some k)).
Proof.
  intros H. split.
  - apply payslip_new_created in H
      as (employee & b & o & a & h & r & ps & pe & _ & _ & _ & _ & _ & _ & _ & _ & Hk & ->).
    destruct (compute_payroll today employee b o a h r) as [[[gross nis] tax] net].
    eexists. cbn [payslips Payslip.id Payslip.other_deductions]. repeat split; eauto.
  - intros v. rewrite <- H. unfold payslip_new, parse_float, get_or_0, parse_date, form_getitem.
    cbn [method form current_user_id].
    rewrite !lookup_insert_ne by discriminate. reflexivity.
Qed.

End PayslipWrites.

Lemma payslip_new_other_deductions_zero_witness :
  payslip_new (RT := reference_runtime) sample_today 0 sample_store reversed_period_request 1
    = Ok (mkStore [sample_employee] [reversed_period_payslip], Redirect "payslip_view" (Some 1))
  /\ ((exists p, [reversed_period_payslip] = [] ++ [p] /\ Payslip.id p = 1
         /\ Payslip.other_deductions p = Some 0%float)
      /\ forall v : string,
           payslip_new (RT := reference_runtime) sample_today 0 sample_store
             (mkRequest POST (<["other_deductions" := v]> (form reversed_period_request)) 7) 1
           = Ok (mkStore [sample_employee] [reversed_period_payslip],
                 Redirect "payslip_view" (Some 1))).
Proof.
  split; [vm_compute; reflexivity|].
  apply (payslip_new_other_deductions_zero (RT := reference_runtime) sample_today 0 sample_store
           (mkStore [sample_employee] [reversed_period_payslip]) reversed_period_request 1 1).
  vm_compute. reflexivity.
Defined.

(** C6, as stated, fails: a submitted NaN is not stored as submitted; the
    column holds NULL. *)
Lemma edit_payslip_nan_not_stored :
  exists st' p,
    method nan_edit_request = POST
    /\ edit_payslip (RT := special_runtime) march_store nan_edit_request 1
       = Ok (st', Redirect "payslip_view" (Some 1))
    /\ p ∈ payslips st' /\ Payslip.id p = 1
    /\ parse_float (RT := special_runtime) (form nan_edit_request) "tax" = Ok nan
    /\ Payslip.tax p = None
    /\ Payslip.tax p <> Some nan.
Proof.
  eexists _, _. split; [reflexivity|]. split; [vm_compute; reflexivity|].
  split; [left|]. split; [reflexivity|]. split; [vm_compute; reflexivity|].
  split; [reflexivity|discriminate].
Qed.

(** C6, amended: a POST edit of a known payslip with two readable dates
    succeeds and stores the submitted amounts and dates, recomputing
    nothing: each amount is held as the [Float] column holds the submitted
    number (itself, except that NaN is held as NULL and a zero as 0.0), the
    dates as submitted; the stored tax, social insurance and net pay can
    therefore differ from what [compute_payroll] gives on the stored pay
    components. *)
Theorem edit_payslip_stores_submitted_values :
  (forall (RT : Runtime) (st : Store) (req : Request) (payslip_id : Z)
          (old : Payslip.t) (ps pe : date),
     method req = POST ->
     get_or_404 Payslip.id (payslips st) payslip_id = Ok old ->
     parse_date (form req) "period_start" = Ok ps ->
     parse_date (form req) "period_end" = Ok pe ->
     exists st' b o a h r t n od np,
       edit_payslip st req payslip_id = Ok (st', Redirect "payslip_view" (Some payslip_id))
       /\ parse_float (form req) "basic_pay" = Ok b
       /\ parse_float (form req) "overtime_pay" = Ok o
       /\ parse_float (form req) "allowances" = Ok a
       /\ parse_float (form req) "hours_worked" = Ok h
       /\ parse_float (form req) "rate_per_hour" = Ok r
       /\ parse_float (form req) "tax" = Ok t
       /\ parse_float (form req) "nis" = Ok n
       /\ parse_float (form req) "other_deductions" = Ok od
       /\ parse_float (form req) "net_pay" = Ok np
       /\ (exists p, p ∈ payslips st' /\ Payslip.id p = payslip_id)
       /\ forall p, p ∈ payslips st' -> Payslip.id p = payslip_id ->
            Payslip.basic_pay p = sqlite_real b
            /\ Payslip.overtime_pay p = sqlite_real o
            /\ Payslip.allowances p = sqlite_real a
            /\ Payslip.hours_worked p = sqlite_real h
            /\ Payslip.rate_per_hour p = sqlite_real r
            /\ Payslip.tax p = sqlite_real t
            /\ Payslip.nis p = sqlite_real n
            /\ Payslip.other_deductions p = sqlite_real od
            /\ Payslip.net_pay p = sqlite_real np
            /\ Payslip.period_start p = ps
            /\ Payslip.period_end p = pe)
  /\ (forall x : float,
        ((x =? x)%float = false -> sqlite_real x = None)
        /\ ((x =? x)%float = true ->
            exists y, sqlite_real x = Some y /\ (y =? x)%float = true
              /\ ((x =? 0)%float = false -> y = x)))
  /\ (exists (st st' : Store) (req : Request) (p : Payslip.t)
             (employee : Employee.t) (today : date) (b o a h r : float),
        method req = POST
        /\ edit_payslip (RT := reference_runtime) st req (Payslip.id p)
           = Ok (st', Redirect "payslip_view" (Some (Payslip.id p)))
        /\ p ∈ payslips st'
        /\ employee ∈ employees st' /\ Employee.id employee = Payslip.employee_id p
        /\ Payslip.basic_pay p = Some b /\ Payslip.overtime_pay p = Some o
        /\ Payslip.allowances p = Some a /\ Payslip.hours_worked p = Some h
        /\ Payslip.rate_per_hour p = Some r
        /\ let '(_, nis, tax, net) := compute_payroll today employee b o a h r in
           Payslip.tax p <> Some tax /\ Payslip.nis p <> Some nis
           /\ Payslip.net_pay p <> Some net).
Proof.
  split; [|split].
  - intros RT st req payslip_id old ps pe Hpost Hold Hps Hpe.
    destruct (edit_payslip_succeeds st req payslip_id old ps pe Hpost Hold Hps Hpe)
      as [st' Hedit].
    pose proof Hedit as H. apply edit_payslip_saved in H
      as (old' & b & o & a & h & r & t & n & od & np & ps' & pe' & Hold' & Hb & Ho & Ha & Hh
          & Hr & Ht & Hn & Hod & Hnp & Hps' & Hpe' & Hst & _); [|exact Hpost].
    assert (old' = old) as -> by congruence.
    assert (ps' = ps) as -> by congruence. assert (pe' = pe) as -> by congruence.
    exists st', b, o, a, h, r, t, n, od, np.
    repeat (split; [assumption|]).
    apply get_or_404_found in Hold as [Hin Hid]. rewrite Hst. split.
    + eexists. split; [eapply update_payslip_present; [exact Hin|reflexivity]|exact Hid].
    + intros p Hp Hpk.
      apply update_payslip_row in Hp as ->; [|cbn [Payslip.id]; congruence].
      cbn. repeat split.
  - exact sqlite_real_spec.
  - exists march_store, (mkStore [sample_employee] [manual_edit_payslip]),
      manual_edit_request, manual_edit_payslip, sample_employee, sample_today,
      200000%float, 0%float, 0%float, 0%float, 0%float.
    split; [reflexivity|]. split; [exact manual_edit_saved|].
    split; [left|]. split; [left|]. split; [reflexivity|].
    repeat (split; [reflexivity|]).
    vm_compute.
    repeat split; intros [= H]; revert H; apply float_neq; vm_compute; discriminate.
Qed.

(** * Employee creation *)

(** C7 at a store that already holds the code E001: the request with that
    code stops on the unbound name [dob]; the uniqueness check of the commit
    is never reached, and the failure is not an integrity failure. *)
Lemma employee_new_duplicate_code :
  code_taken (Some "E001"%string) (employees sample_store) = true
  /\ employee_new sample_store duplicate_code_request = Raise (NameError "dob")
  /\ employee_new sample_store duplicate_code_request <> Raise IntegrityError
  /\ store_after sample_store (employee_new sample_store duplicate_code_request)
     = sample_store.
Proof.
  assert (H : employee_new sample_store duplicate_code_request = Raise (NameError "dob"))
    by (vm_compute; reflexivity).
  rewrite H. split; [vm_compute; reflexivity|].
  split; [reflexivity|]. split; [discriminate|reflexivity].
Qed.

(** C9, as stated, fails: a POST that lacks a required field is refused
    with a bad-request key error, before [dob] is evaluated. *)
Lemma employee_new_missing_field :
  method empty_post_request = POST
  /\ employee_new sample_store empty_post_request
     = Raise (BadRequestKeyError "employee_id_code")
  /\ forall name, employee_new sample_store empty_post_request <> Raise (NameError name).
Proof.
  assert (H : employee_new sample_store empty_post_request
              = Raise (BadRequestKeyError "employee_id_code"))
    by (vm_compute; reflexivity).
  rewrite H. split; [reflexivity|]. split; [reflexivity|discriminate].
Qed.

(** C9, amended: every POST to employee creation raises before anything is
    committed -- a bad-request key error naming the first of the six
    required fields that the form lacks, the unbound-name error on [dob]
    when the six are there -- and no employee is added. *)
Theorem employee_new_persists_nothing (st : Store) (req : Request) :
  method req = POST ->
  employee_new st req
  = Raise (match first_missing (form req) required_fields with
           | Some key => BadRequestKeyError key
           | None => NameError "dob"
           end)
  /\ (forall key, first_missing (form req) required_fields = Some key ->
        key ∈ required_fields /\ form req !! key = None
        /\ forall i j earlier, required_fields !! j = Some key ->
             required_fields !! i = Some earlier -> (i < j)%nat ->
             is_Some (form req !! earlier))
  /\ (first_missing (form req) required_fields = None <->
      forall key, key ∈ required_fields -> is_Some (form req !! key))
  /\ store_after st (employee_new st req) = st.
Proof.
  intros Hpost.
  assert (Hraise : employee_new st req
                   = Raise (match first_missing (form req) required_fields with
                            | Some key => BadRequestKeyError key
                            | None => NameError "dob"
                            end) /\
          (forall key, first_missing (form req) required_fields = Some key ->
             key ∈ required_fields /\ form req !! key = None
             /\ forall i j earlier, required_fields !! j = Some key ->
                  required_fields !! i = Some earlier -> (i < j)%nat ->
                  is_Some (form req !! earlier)) /\
          (first_missing (form req) required_fields = None <->
           forall key, key ∈ required_fields -> is_Some (form req !! key))).
  { unfold employee_new, form_getitem, first_missing, required_fields. rewrite Hpost.
    cbn [List.find].
    repeat match goal with
    | |- context [bool_decide (form req !! ?k = None)] =>
        destruct (form req !! k) eqn:?;
        [ rewrite bool_decide_eq_false_2 by discriminate
        | rewrite bool_decide_eq_true_2 by reflexivity ]
    end; cbn [of_option mbind result_bind unbound_name];
    (split; [reflexivity|]); split;
    try (intros key [= <-]; split; [set_solver|]; split; [assumption|];
         intros i j earlier Hj Hi Hlt;
         repeat (destruct j as [|j]; cbn in Hj; try discriminate; try lia);
         repeat (destruct i as [|i]; cbn in Hi; try discriminate; try lia);
         injection Hi as <-; eauto);
    try discriminate;
    try (split; [discriminate|]; intros Hall;
         match goal with H : form req !! ?k = None |- _ =>
           destruct (Hall k ltac:(set_solver)) as [? ?]; congruence end);
    try (split; [|reflexivity]; intros _ key Hkey;
         repeat (apply elem_of_cons in Hkey as [->|Hkey]; [eauto|]);
         now apply elem_of_nil in Hkey). }
  destruct Hraise as (Hr & Hfirst & Hnone).
  split; [exact Hr|]. split; [exact Hfirst|]. split; [exact Hnone|].
  rewrite Hr. reflexivity.
Qed.

Lemma employee_new_persists_nothing_witness :
  method two_fields_request = POST
  /\ employee_new sample_store two_fields_request = Raise (BadRequestKeyError "first_name")
  /\ store_after sample_store (employee_new sample_store two_fields_request) = sample_store.
Proof.
  split; [reflexivity|].
  destruct (employee_new_persists_nothing sample_store two_fields_request eq_refl)
    as (Hr & _ & _ & Hs).
  split; [exact Hr | exact Hs].
Defined.

(** * Further properties of the code *)

(** ** Age *)

Ltac zbool :=
  repeat match goal with
  | |- context [?a <? ?b] => destruct (Z.ltb_spec a b)
  | |- context [?a <=? ?b] => destruct (Z.leb_spec a b)
  | |- context [?a =? ?b] => destruct (Z.eqb_spec a b)
  | H : context [?a <? ?b] |- _ => destruct (Z.ltb_spec a b)
  | H : context [?a <=? ?b] |- _ => destruct (Z.leb_spec a b)
  | H : context [?a =? ?b] |- _ => destruct (Z.eqb_spec a b)
  end.

Section Age.
Variables (employee : Employee.t) (dob : date).
Hypothesis Hdob : Employee.date_of_birth employee = Some dob.

(** X1: an employee born on or before [today] has a non-negative age. *)
Theorem age_nonnegative (today : date) :
  date_le dob today -> exists a, Employee.age today employee = Some a /\ 0 <= a.
Proof.
  unfold date_le, date_leb, Employee.age, pair_ltb. rewrite Hdob. cbn [fst snd].
  intros H. eexists. split; [reflexivity|].
  zbool; cbn in *; try discriminate; lia.
Qed.

(** X2: age never decreases as the day advances. *)
Theorem age_monotone (d1 d2 : date) :
  date_le d1 d2 ->
  exists a1 a2, Employee.age d1 employee = Some a1 /\ Employee.age d2 employee = Some a2
    /\ a1 <= a2.
Proof.
  unfold date_le, date_leb, Employee.age, pair_ltb. rewrite Hdob. cbn [fst snd].
  intros H. eexists _, _. split; [reflexivity|]. split; [reflexivity|].
  zbool; cbn in *; try discriminate; lia.
Qed.

(** The age is below [n] exactly until the [n]-th anniversary of the date
    of birth. *)
Theorem age_below_until_anniversary (today : date) (n : Z) :
  (exists a, Employee.age today employee = Some a /\ a < n)
  <-> date_leb (mkDate (year dob + n) (month dob) (day dob)) today = false.
Proof.
  unfold date_leb, Employee.age, pair_ltb. rewrite Hdob. cbn [fst snd year month day].
  split.
  - intros (a & [= <-] & Ha). revert Ha. zbool; cbn; intros; try reflexivity; lia.
  - intros H. eexists. split; [reflexivity|].
    revert H. zbool; cbn; intros; try discriminate; lia.
Qed.

End Age.

(** ** The calculator, further *)

Lemma float_sub_zero (x : float) : (x - 0)%float = x.
Proof.
  apply Prim2SF_inj. rewrite sub_spec. change (Prim2SF 0) with (S754_zero false).
  unfold SF64sub. destruct (Prim2SF x) as [[]|[]| |s m e]; reflexivity.
Qed.

(** Mirror of [SFsub_lt_negative]: the rounded difference of [x > y] is
    positive and non-zero. *)
Lemma SFsub_gt_positive (x y : spec_float) :
  valid_binary x = true -> valid_binary y = true ->
  SFltb y x = true -> signed_nonzero false (SFsub prec emax x y).
Proof.
  unfold SFltb.
  destruct x as [sx|sx| |sx mx ex], y as [sy|sy| |sy my ey]; simpl;
    intros Vx Vy Hlt; try discriminate;
    try (destruct sx; try discriminate; reflexivity);
    try (destruct sy; try discriminate; reflexivity);
    try (destruct sx, sy; try discriminate; reflexivity).
  pose proof (bounded_canonical _ _ Vx) as (Hex & _).
  pose proof (bounded_canonical _ _ Vy) as (Hey & _).
  pose proof (Z.le_min_l ex ey) as Hzx. pose proof (Z.le_min_r ex ey) as Hzy.
  assert (Hez : emin <= Z.min ex ey) by (apply Z.min_glb; assumption).
  set (ez := Z.min ex ey) in *.
  destruct (shl_align_spec mx ex ez Hzx) as [HX _].
  destruct (shl_align_spec my ey ez Hzy) as [HY _].
  set (X := Zpos (fst (shl_align mx ex ez))) in *.
  set (Y := Zpos (fst (shl_align my ey ez))) in *.
  assert (HD : 0 < cond_Zopp sx X - cond_Zopp sy Y).
  { change (Pos.compare_cont Eq my mx) with (my ?= mx)%positive in Hlt.
    destruct sx, sy; simpl; try discriminate; try lia.
    - destruct (ey ?= ex) eqn:Ec; try discriminate.
      + apply Z.compare_eq in Ec. subst ey.
        replace (ex - ez) with 0 in * by lia. rewrite Z.mul_1_r in *.
        destruct (my ?= mx)%positive eqn:Em; try discriminate.
        change (Zpos my > Zpos mx) in Em. lia.
      + change (ey > ex) in Ec. apply Z.gt_lt in Ec.
        pose proof (canonical_exp_lt mx my ex ey Vx Vy Ec).
        replace (ex - ez) with 0 in * by lia. replace (ey - ez) with (ey - ex) in * by lia.
        lia.
    - destruct (ey ?= ex) eqn:Ec; try discriminate.
      + apply Z.compare_eq in Ec. subst ey.
        replace (ex - ez) with 0 in * by lia. rewrite Z.mul_1_r in *.
        destruct (my ?= mx)%positive eqn:Em; try discriminate.
        change (Zpos my < Zpos mx) in Em. lia.
      + change (ey < ex) in Ec.
        pose proof (canonical_exp_lt my mx ey ex Vy Vx Ec).
        replace (ey - ez) with 0 in * by lia. replace (ex - ez) with (ex - ey) in * by lia.
        lia. }
  unfold binary_normalize.
  destruct (cond_Zopp sx X - cond_Zopp sy Y) as [|d|d]; try lia.
  apply binary_round_sign. exact Hez.
Qed.

(** Shifting and rounding a non-negative mantissa leaves it non-negative. *)
Lemma shr_fexp_nonneg (m e : Z) (l : location) :
  0 <= m -> 0 <= shr_m (fst (shr_fexp prec emax m e l)).
Proof.
  intros Hm. unfold shr_fexp, shr.
  assert (H0 : 0 <= shr_m (shr_record_of_loc m l)) by (destruct l as [|[]]; exact Hm).
  destruct (fexp prec emax (Zdigits2 m + e) - e) as [|p|p]; cbn [fst]; try exact H0.
  rewrite iter_shr_1_m by exact H0. apply Z.div_pos; lia.
Qed.

Lemma round_nearest_even_nonneg (m : Z) (l : location) :
  0 <= m -> 0 <= round_nearest_even m l.
Proof.
  intros Hm. destruct l as [|[]]; cbn; try lia. destruct (Z.even m); lia.
Qed.

Lemma binary_round_aux_not_below_zero (m : positive) (e : Z) (l : location) :
  SFleb (S754_zero false) (binary_round_aux prec emax false (Zpos m) e l) = true.
Proof.
  unfold binary_round_aux.
  pose proof (shr_fexp_nonneg (Zpos m) e l ltac:(lia)) as H1.
  destruct (shr_fexp prec emax (Z.pos m) e l) as [mrs' e']. cbn [fst] in H1.
  pose proof (round_nearest_even_nonneg _ (loc_of_shr_record mrs') H1) as H2.
  pose proof (shr_fexp_nonneg _ e' loc_Exact H2) as H3.
  destruct (shr_fexp prec emax _ e' loc_Exact) as [mrs'' e'']. cbn [fst] in H3.
  destruct (shr_m mrs'') as [|q|q]; try lia; [reflexivity|].
  destruct (e'' <=? emax - prec); reflexivity.
Qed.

(** A positive number times 0.28 is not negative. *)
Lemma float_mul_rate_nonneg (x : float) :
  signed_nonzero false (Prim2SF x) -> (0 <=? x * 0.28)%float = true.
Proof.
  intros Hx. rewrite leb_spec, mul_spec. change (Prim2SF 0) with (S754_zero false).
  unfold SF64mul.
  destruct (Prim2SF 0.28) as [| | |s28 m28 e28] eqn:E28; try (vm_compute in E28; discriminate).
  assert (s28 = false) as -> by (vm_compute in E28; congruence).
  destruct (Prim2SF x) as [s|s| |s m e]; cbn in Hx; try contradiction; subst s.
  - reflexivity.
  - cbn [SFmul xorb]. apply binary_round_aux_not_below_zero.
Qed.

Section CalculatorEdges.
Variables (today : date) (employee : Employee.t).
Variables (basic overtime allowances hours_worked rate_per_hour : float).

(** X3: social insurance, [round(gross * 0.056, 2)] of the gross made of
    the pay components, is withheld on every day before the employee's 60th
    birthday and on no day from that birthday on. *)
Theorem nis_withheld_until_60th_birthday (dob : date) :
  Employee.date_of_birth employee = Some dob ->
  let sixtieth := mkDate (year dob + 60) (month dob) (day dob) in
  let gross := (basic + overtime + allowances + hours_worked * rate_per_hour)%float in
  let '(_, nis, _, _) :=
    compute_payroll today employee basic overtime allowances hours_worked rate_per_hour in
  (date_leb sixtieth today = false -> nis = py_round2 (gross * 0.056)%float)
  /\ (date_leb sixtieth today = true -> nis = 0%float).
Proof.
  intros Hdob sixtieth gross. subst gross.
  pose proof (age_below_until_anniversary employee dob Hdob today 60) as Hage.
  fold sixtieth in Hage.
  unfold compute_payroll. cbv beta iota zeta.
  destruct (Employee.age today employee) as [a|] eqn:Ea.
  - split; intros H.
    + apply Hage in H as (a' & [= <-] & Ha). apply Z.ltb_lt in Ha. now rewrite Ha.
    + destruct (Z.ltb_spec a 60) as [Ha|Ha]; [|reflexivity].
      assert (date_leb sixtieth today = false) by (apply Hage; eauto). congruence.
  - unfold Employee.age in Ea. rewrite Hdob in Ea. discriminate.
Qed.

(** X4: for an employee exempt from social insurance (no date of birth, or
    aged 60 or more) and a gross of at most 130000, nothing is withheld and
    the net pay is the gross pay. *)
Theorem exempt_below_threshold_net_is_gross :
  (Employee.date_of_birth employee = None
   \/ exists a, Employee.age today employee = Some a /\ 60 <= a) ->
  let '(gross, nis, tax, net) :=
    compute_payroll today employee basic overtime allowances hours_worked rate_per_hour in
  (gross <=? 130000)%float = true -> nis = 0%float /\ tax = 0%float /\ net = gross.
Proof.
  intros Hex. unfold compute_payroll. cbv beta iota zeta.
  intros Hle%float_leb_not_gt. rewrite Hle.
  assert (Hnis : match Employee.age today employee with
                 | Some a => if a <? 60 then
                     py_round2 ((basic + overtime + allowances + hours_worked * rate_per_hour)
                                * 0.056)%float
                   else 0%float
                 | None => 0%float
                 end = 0%float).
  { destruct Hex as [Hd | (a & -> & Ha)].
    { apply (proj2 (age_unknown_iff today employee)) in Hd. now rewrite Hd. }
    apply Z.ltb_ge in Ha. now rewrite Ha. }
  rewrite Hnis. split; [reflexivity|]. split; [reflexivity|].
  change (0 + 0)%float with 0%float. apply float_sub_zero.
Qed.

(** X5: the tax is never negative and never NaN, whatever the inputs. *)
Theorem compute_payroll_tax_nonnegative :
  let '(_, _, tax, _) :=
    compute_payroll today employee basic overtime allowances hours_worked rate_per_hour in
  (0 <=? tax)%float = true.
Proof.
  unfold compute_payroll. cbv beta iota zeta.
  set (gross := (basic + overtime + allowances + hours_worked * rate_per_hour)%float).
  destruct (130000 <? gross)%float eqn:Hgt; [|reflexivity].
  apply float_mul_rate_nonneg. rewrite sub_spec. rewrite ltb_spec in Hgt.
  apply SFsub_gt_positive; [apply Prim2SF_valid..|exact Hgt].
Qed.

End CalculatorEdges.

(** ** The aggregator, further *)

Lemma ytd_loop_app (l1 l2 : list Payslip.t) : forall totals,
  ytd_loop totals (l1 ++ l2) = (t ← ytd_loop totals l1; ytd_loop t l2).
Proof.
  induction l1 as [|s l1 IH]; intros totals; [reflexivity|].
  cbn [app ytd_loop]. destruct (ytd_step totals s) as [t1|]; [|reflexivity].
  cbn [mbind result_bind]. apply IH.
Qed.

Section AggregatorMore.
Variables (st : Store) (employee_id : Z) (period_end : date).

(** X6: the totals are additive in the stored payslips.  For an employee
    identifier within 64 bits and a store whose window payslips have their
    amounts, the aggregation succeeds, and with one more payslip stored last
    it gives the same totals if the payslip is outside the window, the
    totals with the payslip's seven amounts added if it is inside with all
    its amounts, and raises [TypeError] if it is inside with a NULL
    amount. *)
Theorem ytd_for_employee_one_more (p : Payslip.t) :
  - 2 ^ 63 <= employee_id < 2 ^ 63 ->
  (forall s, s ∈ filter (in_ytd_window employee_id period_end) (payslips st) ->
     amounts_present s) ->
  let outcome' :=
    ytd_for_employee (mkStore (employees st) (payslips st ++ [p])) employee_id period_end in
  exists totals,
    ytd_for_employee st employee_id period_end = Ok totals
    /\ (~ in_ytd_window employee_id period_end p -> outcome' = Ok totals)
    /\ (in_ytd_window employee_id period_end p -> ~ amounts_present p ->
        outcome' = Raise TypeError)
    /\ (in_ytd_window employee_id period_end p -> amounts_present p ->
        exists totals', outcome' = Ok totals'
          /\ totals' !! "basic_pay"
             = (x ← totals !! "basic_pay"; v ← Payslip.basic_pay p; Some (x + v)%float)
          /\ totals' !! "overtime_pay"
             = (x ← totals !! "overtime_pay"; v ← Payslip.overtime_pay p;
                Some (x + v)%float)
          /\ totals' !! "allowances"
             = (x ← totals !! "allowances"; v ← Payslip.allowances p; Some (x + v)%float)
          /\ totals' !! "tax"
             = (x ← totals !! "tax"; v ← Payslip.tax p; Some (x + v)%float)
          /\ totals' !! "nis"
             = (x ← totals !! "nis"; v ← Payslip.nis p; Some (x + v)%float)
          /\ totals' !! "other_deductions"
             = (x ← totals !! "other_deductions"; v ← Payslip.other_deductions p;
                Some (x + v)%float)
          /\ totals' !! "net_pay"
             = (x ← totals !! "net_pay"; v ← Payslip.net_pay p; Some (x + v)%float)).
Proof.
  intros Hk%sqlite_integer_spec Hall outcome'. subst outcome'.
  unfold ytd_for_employee. cbn [payslips]. rewrite Hk.
  rewrite List.filter_app, ytd_loop_app, ytd_query_filter. cbn [List.filter].
  destruct (ytd_loop_present _ Hall zero_totals) as (totals & Ht & _).
  exists totals. rewrite Ht. cbn [mbind result_bind]. split; [reflexivity|].
  destruct (in_ytd_query employee_id period_end p) eqn:E.
  - apply in_ytd_query_spec in E. cbn [ytd_loop]. split; [contradiction|]. split.
    + intros _ Hn. now rewrite (ytd_step_null totals p Hn).
    + intros _ Hp. destruct (ytd_step_present totals p Hp) as (t' & Hs & _ & Hl).
      exists t'. rewrite Hs. split; [reflexivity|exact Hl].
  - assert (Hout : ~ in_ytd_window employee_id period_end p)
      by (intros H%in_ytd_query_spec; congruence).
    cbn [ytd_loop]. split; [reflexivity|]. split; intros; contradiction.
Qed.

(** X7: for an employee identifier within 64 bits, when every payslip of
    the window has its seven amounts, the aggregation returns a dictionary
    with exactly the seven keys. *)
Theorem ytd_for_employee_keys :
  - 2 ^ 63 <= employee_id < 2 ^ 63 ->
  (forall s, s ∈ filter (in_ytd_window employee_id period_end) (payslips st) ->
     amounts_present s) ->
  exists totals, ytd_for_employee st employee_id period_end = Ok totals
    /\ dom totals
       = list_to_set ["basic_pay"; "overtime_pay"; "allowances"; "tax"; "nis";
                      "other_deductions"; "net_pay"]%string.
Proof.
  intros Hk%sqlite_integer_spec Hall. unfold ytd_for_employee. rewrite Hk, ytd_query_filter.
  destruct (ytd_loop_present _ Hall zero_totals) as (totals & Ht & Hd).
  exists totals. split; [exact Ht|]. rewrite Hd.
  unfold zero_totals. rewrite !dom_insert_L, dom_empty_L.
  cbn [list_to_set foldr]. set_solver.
Qed.

End AggregatorMore.

(** X8: a stored payslip (its employee key within 64 bits, its period end
    a calendar date) lies in its own window, so the totals shown with it
    count it: the view of a payslip with a NULL amount raises [TypeError],
    and when the payslips of the window have their amounts the view hands
    over the payslip and the totals of the aggregation. *)
Theorem payslip_view_counts_own_payslip (st : Store) (payslip_id : Z) (p : Payslip.t) :
  get_or_404 Payslip.id (payslips st) payslip_id = Ok p ->
  - 2 ^ 63 <= Payslip.employee_id p < 2 ^ 63 ->
  1 <= month (Payslip.period_end p) -> 1 <= day (Payslip.period_end p) ->
  let window :=
    filter (in_ytd_window (Payslip.employee_id p) (Payslip.period_end p)) (payslips st) in
  p ∈ window
  /\ (~ amounts_present p -> payslip_view st payslip_id = Raise TypeError)
  /\ ((forall s, s ∈ window -> amounts_present s) ->
      exists totals,
        payslip_view st payslip_id = Ok (p, totals)
        /\ ytd_for_employee st (Payslip.employee_id p) (Payslip.period_end p) = Ok totals
        /\ totals !! "net_pay" = sum_field Payslip.net_pay window).
Proof.
  intros Hget Hk%sqlite_integer_spec Hm Hd window.
  pose proof (get_or_404_found _ _ _ _ Hget) as [Hin Hid].
  assert (Hp : p ∈ window).
  { apply list_elem_of_filter. split; [|exact Hin].
    unfold in_ytd_window, date_le, date_leb. cbn [year month day].
    split; [reflexivity|]. split; zbool; cbn; try reflexivity; lia. }
  split; [exact Hp|]. unfold payslip_view, ytd_for_employee.
  rewrite Hget. cbn [mbind result_bind]. rewrite Hk, ytd_query_filter. fold window. split.
  - intros Hn. rewrite (ytd_loop_null window) by (exists p; split; assumption).
    reflexivity.
  - intros Hall. destruct (ytd_loop_present window Hall zero_totals) as (totals & Ht & _).
    exists totals. rewrite Ht. split; [reflexivity|]. split; [reflexivity|].
    unfold sum_field. change (Some 0%float) with (zero_totals !! "net_pay").
    apply (ytd_loop_lookup "net_pay" Payslip.net_pay); [|exact Ht].
    intros t s t' Hs. now destruct (ytd_step_lookup t t' s Hs) as (_ & _ & _ & _ & _ & _ & H7).
Qed.

Lemma march_window_amounts_present :
  forall s, s ∈ filter (in_ytd_window 1 (mkDate 2025 3 31)) (payslips march_store) ->
    amounts_present s.
Proof.
  intros s Hs. apply list_elem_of_filter in Hs as [_ Hs]. cbn in Hs.
  apply list_elem_of_singleton in Hs as ->. repeat split; eexists; reflexivity.
Qed.

Lemma ytd_for_employee_one_more_witness :
  - 2 ^ 63 <= 1 < 2 ^ 63
  /\ in_ytd_window 1 (mkDate 2025 3 31) second_payslip
  /\ amounts_present second_payslip
  /\ exists totals,
       ytd_for_employee march_store 1 (mkDate 2025 3 31) = Ok totals
       /\ exists totals',
            ytd_for_employee (mkStore [sample_employee] [march_payslip; second_payslip]) 1
              (mkDate 2025 3 31) = Ok totals'
            /\ totals' !! "net_pay"
               = (x ← totals !! "net_pay"; v ← Payslip.net_pay second_payslip;
                  Some (x + v)%float).
Proof.
  assert (Hw : in_ytd_window 1 (mkDate 2025 3 31) second_payslip) by (repeat split).
  assert (Hp : amounts_present second_payslip) by (repeat split; eexists; reflexivity).
  split; [lia|]. split; [exact Hw|]. split; [exact Hp|].
  destruct (ytd_for_employee_one_more march_store 1 (mkDate 2025 3 31) second_payslip
              ltac:(lia) march_window_amounts_present)
    as (totals & Ht & _ & _ & Hin).
  exists totals. split; [exact Ht|].
  destruct (Hin Hw Hp) as (totals' & Ht' & _ & _ & _ & _ & _ & _ & Hnet).
  exists totals'. split; [exact Ht'|exact Hnet].
Defined.

Lemma ytd_for_employee_keys_witness :
  - 2 ^ 63 <= 1 < 2 ^ 63
  /\ (forall s, s ∈ filter (in_ytd_window 1 (mkDate 2025 3 31)) (payslips march_store) ->
     amounts_present s)
  /\ exists totals, ytd_for_employee march_store 1 (mkDate 2025 3 31) = Ok totals
       /\ dom totals
          = list_to_set ["basic_pay"; "overtime_pay"; "allowances"; "tax"; "nis";
                         "other_deductions"; "net_pay"]%string.
Proof.
  assert (H : forall s, s ∈ filter (in_ytd_window 1 (mkDate 2025 3 31)) (payslips march_store)
                -> amounts_present s).
  { intros s Hs. apply list_elem_of_filter in Hs as [_ Hs]. cbn in Hs.
    apply list_elem_of_singleton in Hs as ->. repeat split; eexists; reflexivity. }
  split; [lia|]. split; [exact H|].
  exact (ytd_for_employee_keys march_store 1 (mkDate 2025 3 31) ltac:(lia) H).
Defined.

Lemma payslip_view_counts_own_payslip_witness :
  get_or_404 Payslip.id (payslips march_store) 1 = Ok march_payslip
  /\ march_payslip ∈ filter (in_ytd_window 1 (mkDate 2025 3 31)) (payslips march_store)
  /\ (~ amounts_present march_payslip -> payslip_view march_store 1 = Raise TypeError)
  /\ ((forall s, s ∈ filter (in_ytd_window 1 (mkDate 2025 3 31)) (payslips march_store) ->
         amounts_present s) ->
      exists totals,
        payslip_view march_store 1 = Ok (march_payslip, totals)
        /\ ytd_for_employee march_store 1 (mkDate 2025 3 31) = Ok totals
        /\ totals !! "net_pay"
           = sum_field Payslip.net_pay
               (filter (in_ytd_window 1 (mkDate 2025 3 31)) (payslips march_store))).
Proof.
  split; [reflexivity|].
  apply (payslip_view_counts_own_payslip march_store 1 march_payslip);
    [reflexivity | cbn; lia | cbn; lia | cbn; lia].
Defined.

Lemma age_nonnegative_witness :
  Employee.date_of_birth sample_employee = Some (mkDate 1980 5 17)
  /\ date_le (mkDate 1980 5 17) sample_today
  /\ exists a, Employee.age sample_today sample_employee = Some a /\ 0 <= a.
Proof.
  split; [reflexivity|]. split; [reflexivity|].
  apply (age_nonnegative sample_employee (mkDate 1980 5 17)); reflexivity.
Defined.

Lemma age_monotone_witness :
  Employee.date_of_birth sample_employee = Some (mkDate 1980 5 17)
  /\ date_le (mkDate 2025 5 16) (mkDate 2025 5 17)
  /\ exists a1 a2, Employee.age (mkDate 2025 5 16) sample_employee = Some a1
       /\ Employee.age (mkDate 2025 5 17) sample_employee = Some a2 /\ a1 <= a2.
Proof.
  split; [reflexivity|]. split; [reflexivity|].
  apply (age_monotone sample_employee (mkDate 1980 5 17)); reflexivity.
Defined.

Lemma nis_withheld_until_60th_birthday_witness :
  Employee.date_of_birth senior_employee = Some (mkDate 1960 1 15)
  /\ let '(_, nis, _, _) :=
       compute_payroll (mkDate 2020 1 14) senior_employee 100000 0 0 0 0 in
     (date_leb (mkDate 2020 1 15) (mkDate 2020 1 14) = false ->
        nis = py_round2 ((100000 + 0 + 0 + 0 * 0) * 0.056)%float)
     /\ (date_leb (mkDate 2020 1 15) (mkDate 2020 1 14) = true -> nis = 0%float).
Proof.
  split; [reflexivity|].
  apply (nis_withheld_until_60th_birthday (mkDate 2020 1 14) senior_employee
           100000 0 0 0 0 (mkDate 1960 1 15)).
  reflexivity.
Defined.

Lemma exempt_below_threshold_net_is_gross_witness :
  (Employee.date_of_birth senior_employee = None
   \/ exists a, Employee.age sample_today senior_employee = Some a /\ 60 <= a)
  /\ let '(gross, nis, tax, net) :=
       compute_payroll sample_today senior_employee 120000 0 0 0 0 in
     (gross <=? 130000)%float = true -> nis = 0%float /\ tax = 0%float /\ net = gross.
Proof.
  assert (H : Employee.date_of_birth senior_employee = None
              \/ exists a, Employee.age sample_today senior_employee = Some a /\ 60 <= a).
  { right. exists 65. split; [reflexivity|lia]. }
  split; [exact H|].
  exact (exempt_below_threshold_net_is_gross sample_today senior_employee 120000 0 0 0 0 H).
Defined.

(** ** Handlers, further *)

Lemma get_or_404_absent {A} (key : A -> Z) (rows : list A) (k : Z) :
  - 2 ^ 63 <= k < 2 ^ 63 ->
  (forall r, r ∈ rows -> key r <> k) -> get_or_404 key rows k = Raise NotFound.
Proof.
  intros Hrange%sqlite_integer_spec Hno. unfold get_or_404. rewrite Hrange.
  destruct (List.find _ rows) as [r|] eqn:E; [|reflexivity].
  apply find_some in E as [Hin Hk%Z.eqb_eq].
  apply list_elem_of_In in Hin. now apply Hno in Hin.
Qed.

Lemma get_or_404_overflow {A} (key : A -> Z) (rows : list A) (k : Z) :
  k < - 2 ^ 63 \/ 2 ^ 63 <= k -> get_or_404 key rows k = Raise OverflowError.
Proof. intros Hk%sqlite_integer_spec. unfold get_or_404. now rewrite Hk. Qed.

Lemma next_id_above {A} (key : A -> Z) (rows : list A) (r : A) :
  r ∈ rows -> key r < next_id key rows.
Proof.
  unfold next_id. induction rows as [|x rows IH]; intros Hin.
  - now apply elem_of_nil in Hin.
  - cbn [fmap list_fmap foldr]. apply elem_of_cons in Hin as [->|Hin]; [lia|].
    specialize (IH Hin). cbn in IH. lia.
Qed.

Section HandlersMore.
Context {RT : Runtime} {SP : Strptime}.
Variables (today : date) (utcnow : Z) (st : Store) (req : Request).

(** X9: for an employee key that fits SQLite's 64-bit integer and that no
    row carries, payslip creation and employee edit answer "not found",
    whatever the method and the form; for a key of 2^63 or more the lookup
    itself raises [OverflowError]. *)
Theorem unknown_employee_not_found (k : Z) :
  (forall e, e ∈ employees st -> Employee.id e <> k) ->
  (- 2 ^ 63 <= k < 2 ^ 63 ->
     payslip_new today utcnow st req k = Raise NotFound
     /\ edit_employee st req k = Raise NotFound)
  /\ (2 ^ 63 <= k ->
      payslip_new today utcnow st req k = Raise OverflowError
      /\ edit_employee st req k = Raise OverflowError).
Proof.
  intros Hno. unfold payslip_new, edit_employee. split; intros Hk.
  - rewrite (get_or_404_absent _ _ _ Hk Hno). split; reflexivity.
  - rewrite (get_or_404_overflow Employee.id (employees st) k) by (right; exact Hk).
    split; reflexivity.
Qed.

(** X10: likewise for a payslip key, in payslip edit and payslip view. *)
Theorem unknown_payslip_not_found (k : Z) :
  (forall p, p ∈ payslips st -> Payslip.id p <> k) ->
  (- 2 ^ 63 <= k < 2 ^ 63 ->
     edit_payslip st req k = Raise NotFound /\ payslip_view st k = Raise NotFound)
  /\ (2 ^ 63 <= k ->
      edit_payslip st req k = Raise OverflowError
      /\ payslip_view st k = Raise OverflowError).
Proof.
  intros Hno. unfold edit_payslip, payslip_view. split; intros Hk.
  - rewrite (get_or_404_absent _ _ _ Hk Hno). split; reflexivity.
  - rewrite (get_or_404_overflow Payslip.id (payslips st) k) by (right; exact Hk).
    split; reflexivity.
Qed.

Lemma parse_date_cases (f : gmap string string) (key : string) :
  (f !! key = None -> parse_date f key = Raise (BadRequestKeyError key))
  /\ (forall s, f !! key = Some s -> date_fromisoformat s = None ->
        parse_date f key = Raise ValueError)
  /\ (forall s d, f !! key = Some s -> date_fromisoformat s = Some d ->
        parse_date f key = Ok d).
Proof.
  unfold parse_date, form_getitem.
  split; [|split].
  - intros ->. reflexivity.
  - intros s -> Hs. cbn. now rewrite Hs.
  - intros s d -> Hs. cbn. now rewrite Hs.
Qed.

(** X11: a creation or edit whose period dates are missing or malformed
    raises -- a bad-request key error for a missing field, [ValueError] for
    text the date parser refuses, [period_start] being looked at first --
    and stores nothing. *)
Theorem payslip_write_bad_dates (employee_id payslip_id : Z) (employee : Employee.t)
    (payslip : Payslip.t) (field : string) :
  method req = POST ->
  get_or_404 Employee.id (employees st) employee_id = Ok employee ->
  get_or_404 Payslip.id (payslips st) payslip_id = Ok payslip ->
  (field = "period_start"%string
   \/ field = "period_end"%string /\ exists d, parse_date (form req) "period_start" = Ok d) ->
  let created := payslip_new today utcnow st req employee_id in
  let edited := edit_payslip st req payslip_id in
  (form req !! field = None ->
     created = Raise (BadRequestKeyError field) /\ edited = Raise (BadRequestKeyError field))
  /\ (forall s, form req !! field = Some s -> date_fromisoformat s = None ->
        created = Raise ValueError /\ edited = Raise ValueError)
  /\ (forall e, parse_date (form req) field = Raise e ->
        store_after st created = st /\ store_after st edited = st).
Proof.
  intros Hpost He Hp Hfield created edited.
  assert (Hboth : forall e, parse_date (form req) field = Raise e ->
                            created = Raise e /\ edited = Raise e).
  { intros e Hraise. subst created edited. unfold payslip_new, edit_payslip.
    rewrite He, Hp. cbn [mbind result_bind]. rewrite Hpost, !parse_float_eq.
    cbn [mbind result_bind].
    destruct (compute_payroll _ _ _ _ _ _ _) as [[[gross nis] tax] net].
    destruct Hfield as [-> | [-> [d Hd]]].
    - rewrite Hraise. split; reflexivity.
    - rewrite Hd. cbn [mbind result_bind]. rewrite Hraise. split; reflexivity. }
  destruct (parse_date_cases (form req) field) as (Hmissing & Hbad & _).
  split; [|split].
  - intros Hnone. apply Hboth, Hmissing, Hnone.
  - intros s Hs Hnot. apply Hboth. now apply Hbad with s.
  - intros e Hraise. destruct (Hboth e Hraise) as [-> ->]. split; reflexivity.
Qed.

(** X12: a creation for a known employee with two readable dates
    succeeds, and the payslip it appends agrees with the calculator: its
    pay components are the submitted numbers and its tax, social insurance
    and net pay are what [compute_payroll] gives for them on the day of
    creation, each as the [Float] column holds it; it belongs to the
    requested employee and records the operator. *)
Theorem payslip_new_agrees_with_calculator (employee_id : Z) (employee : Employee.t)
    (ps pe : date) :
  method req = POST ->
  get_or_404 Employee.id (employees st) employee_id = Ok employee ->
  parse_date (form req) "period_start" = Ok ps ->
  parse_date (form req) "period_end" = Ok pe ->
  exists st' p b o a h r,
    payslip_new today utcnow st req employee_id
      = Ok (st', Redirect "payslip_view" (Some (Payslip.id p)))
    /\ parse_float (form req) "basic_pay" = Ok b
    /\ parse_float (form req) "overtime_pay" = Ok o
    /\ parse_float (form req) "allowances" = Ok a
    /\ parse_float (form req) "hours_worked" = Ok h
    /\ parse_float (form req) "rate_per_hour" = Ok r
    /\ payslips st' = payslips st ++ [p] /\ employees st' = employees st
    /\ Payslip.employee_id p = employee_id
    /\ Payslip.created_by p = current_user_id req
    /\ Payslip.created_at p = utcnow
    /\ Payslip.period_start p = ps /\ Payslip.period_end p = pe
    /\ Payslip.basic_pay p = sqlite_real b
    /\ Payslip.overtime_pay p = sqlite_real o
    /\ Payslip.allowances p = sqlite_real a
    /\ Payslip.hours_worked p = sqlite_real h
    /\ Payslip.rate_per_hour p = sqlite_real r
    /\ let '(_, nis, tax, net) := compute_payroll today employee b o a h r in
       Payslip.nis p = sqlite_real nis /\ Payslip.tax p = sqlite_real tax
       /\ Payslip.net_pay p = sqlite_real net.
Proof.
  intros Hpost He Hps Hpe.
  destruct (payslip_new_succeeds today utcnow st req employee_id employee ps pe
              Hpost He Hps Hpe) as [st' Hnew].
  pose proof Hnew as H. apply payslip_new_created in H
    as (employee' & b & o & a & h & r & ps' & pe' & He' & Hb & Ho & Ha & Hh & Hr & Hps'
        & Hpe' & _ & Hst).
  assert (employee' = employee) as -> by congruence.
  assert (ps' = ps) as -> by congruence. assert (pe' = pe) as -> by congruence.
  destruct (compute_payroll today employee b o a h r) as [[[gross nis] tax] net] eqn:Ec.
  subst st'. eexists.
  exists (Payslip.mk (next_id Payslip.id (payslips st)) (Employee.id employee) ps pe
            (sqlite_real b) (sqlite_real o) (sqlite_real a) (sqlite_real tax)
            (sqlite_real nis) (Some 0%float) (sqlite_real net) (sqlite_real h)
            (sqlite_real r) (current_user_id req) utcnow None), b, o, a, h, r.
  cbn [payslips employees].
  split; [exact Hnew|]. repeat (split; [assumption|]).
  split; [reflexivity|]. split; [reflexivity|].
  apply get_or_404_found in He as [_ Hid].
  cbn [Payslip.employee_id Payslip.created_by Payslip.created_at Payslip.basic_pay
       Payslip.overtime_pay Payslip.allowances Payslip.hours_worked Payslip.rate_per_hour
       Payslip.nis Payslip.tax Payslip.net_pay Payslip.period_start Payslip.period_end].
  rewrite Ec. repeat split; auto.
Qed.


End HandlersMore.

(** ** Payslip edit, further *)

Lemma get_or_404_in_range {A} (key : A -> Z) (rows : list A) (k : Z) (r : A) :
  get_or_404 key rows k = Ok r -> sqlite_integer k = true.
Proof. unfold get_or_404. destruct (sqlite_integer k); [reflexivity|discriminate]. Qed.

Lemma get_or_404_present {A} (key : A -> Z) (rows : list A) (r : A) :
  sqlite_integer (key r) = true -> r ∈ rows -> exists q, get_or_404 key rows (key r) = Ok q.
Proof.
  intros Hk Hin. unfold get_or_404. rewrite Hk.
  destruct (List.find _ rows) as [q|] eqn:E; [now exists q|].
  apply list_elem_of_In in Hin.
  pose proof (find_none _ _ E r Hin) as Hne. cbn in Hne.
  rewrite Z.eqb_refl in Hne. discriminate.
Qed.

(** With unique keys, writing a row back by key changes that position only. *)
Lemma replace_by_key_is_insert {A} (key : A -> Z) (l : list A) (i : nat) (old p : A) :
  NoDup (key <$> l) -> l !! i = Some old ->
  (fun r => if key r =? key old then p else r) <$> l = <[i := p]> l.
Proof.
  intros Hnd Hi. apply list_eq. intros j. rewrite list_lookup_fmap.
  destruct (decide (i = j)) as [<-|Hne].
  - rewrite list_lookup_insert_eq by (now apply lookup_lt_Some in Hi).
    rewrite Hi. cbn. now rewrite Z.eqb_refl.
  - rewrite list_lookup_insert_ne by exact Hne.
    destruct (l !! j) as [r|] eqn:Hj; [|reflexivity]. cbn.
    destruct (Z.eqb_spec (key r) (key old)) as [Heq|]; [|reflexivity].
    exfalso. apply Hne. eapply NoDup_lookup; [exact Hnd|..].
    + rewrite list_lookup_fmap, Hi. reflexivity.
    + rewrite list_lookup_fmap, Hj. cbn. now rewrite Heq.
Qed.

Section PayslipEditMore.
Context {RT : Runtime}.
Variables (st st' : Store) (req : Request) (payslip_id : Z) (resp : response).
Hypothesis Hpost : method req = POST.
Hypothesis Hedit : edit_payslip st req payslip_id = Ok (st', resp).

(** X14: with unique keys, an edit rewrites one row in place: the other
    payslips and the employees are untouched, and the row keeps its key, its
    employee and its creator. *)
Theorem edit_payslip_changes_one_row :
  payslip_ids_unique st ->
  exists i old p,
    payslips st !! i = Some old /\ Payslip.id old = payslip_id
    /\ payslips st' = <[i := p]> (payslips st)
    /\ employees st' = employees st
    /\ Payslip.id p = payslip_id
    /\ Payslip.employee_id p = Payslip.employee_id old
    /\ Payslip.created_by p = Payslip.created_by old
    /\ Payslip.created_at p = Payslip.created_at old
    /\ payslip_ids_unique st'.
Proof.
  unfold payslip_ids_unique. intros Huniq.
  pose proof Hedit as H. apply edit_payslip_saved in H
    as (old & b & o & a & h & r & t & n & od & np & ps & pe & Hold & _ & _ & _ & _ & _
        & _ & _ & _ & _ & _ & _ & Hst & _); [|exact Hpost].
  apply get_or_404_found in Hold as [Hin Hid].
  apply list_elem_of_lookup in Hin as [i Hi].
  exists i, old. eexists. split; [exact Hi|]. split; [exact Hid|].
  rewrite Hst. unfold update_payslip. cbn [payslips employees Payslip.id].
  rewrite (replace_by_key_is_insert Payslip.id _ i old _ Huniq Hi).
  split; [reflexivity|]. split; [reflexivity|]. cbn [as_stored Payslip.id
    Payslip.employee_id Payslip.created_by Payslip.created_at].
  repeat (split; [first [exact Hid | reflexivity]|]).
  rewrite list_fmap_insert. cbn [Payslip.id].
  rewrite list_insert_id; [exact Huniq|]. now rewrite list_lookup_fmap, Hi.
Qed.

(** X15: an edit is idempotent: sending the same form again leaves the
    store as the first edit left it. *)
Theorem edit_payslip_idempotent :
  edit_payslip st' req payslip_id = Ok (st', resp).
Proof.
  pose proof Hedit as H. apply edit_payslip_saved in H
    as (old & b & o & a & h & r & t & n & od & np & ps & pe & Hold & Hb & Ho & Ha & Hh & Hr
        & Ht & Hn & Hod & Hnp & Hps & Hpe & Hst & Hresp); [|exact Hpost].
  pose proof (get_or_404_in_range _ _ _ _ Hold) as Hrange.
  apply get_or_404_found in Hold as [Hin Hid].
  set (p := Payslip.mk (Payslip.id old) (Payslip.employee_id old) ps pe
              (Some b) (Some o) (Some a) (Some t) (Some n) (Some od) (Some np)
              (Some h) (Some r)
              (Payslip.created_by old) (Payslip.created_at old)
              (Payslip.date_of_birth old)) in *.
  assert (Hp : as_stored p ∈ payslips st').
  { rewrite Hst. now apply (update_payslip_present st old p). }
  assert (Hpid : Payslip.id (as_stored p) = payslip_id) by exact Hid.
  destruct (get_or_404_present Payslip.id (payslips st') (as_stored p)) as [q Hq];
    [now rewrite Hpid | exact Hp |].
  rewrite Hpid in Hq.
  pose proof (get_or_404_found _ _ _ _ Hq) as [Hqin Hqid].
  assert (q = as_stored p) as ->.
  { rewrite Hst in Hqin. apply (update_payslip_row st p q Hqin). cbn. congruence. }
  unfold edit_payslip. rewrite Hq. cbn [mbind result_bind].
  rewrite Hpost, Hb, Ho, Ha, Hh, Hr, Ht, Hn, Hod, Hnp, Hps, Hpe. cbn [mbind result_bind].
  rewrite Hresp. f_equal. f_equal.
  change (Payslip.mk (Payslip.id (as_stored p)) (Payslip.employee_id (as_stored p)) ps pe
            (Some b) (Some o) (Some a) (Some t) (Some n) (Some od) (Some np)
            (Some h) (Some r)
            (Payslip.created_by (as_stored p)) (Payslip.created_at (as_stored p))
            (Payslip.date_of_birth (as_stored p))) with p.
  rewrite Hst.
  unfold update_payslip. cbn [employees payslips]. f_equal.
  rewrite <- list_fmap_compose. apply list_fmap_ext. intros _ x _. cbn [compose].
  destruct (Payslip.id x =? Payslip.id p) eqn:E; [|now rewrite E].
  change (Payslip.id (as_stored p)) with (Payslip.id p). now rewrite Z.eqb_refl.
Qed.

End PayslipEditMore.

(** ** Employee edit *)

Section EmployeeEditFacts.
Context {SP : Strptime}.
Variables (st : Store) (req : Request) (emp_id : Z).
Hypothesis Hpost : method req = POST.

(** The employee an edit writes back. *)
Lemma edit_employee_saved (st' : Store) (resp : response) :
  edit_employee st req emp_id = Ok (st', resp) ->
  exists old dob,
    get_or_404 Employee.id (employees st) emp_id = Ok old
    /\ edited_dob (form req) old = Ok dob
    /\ code_taken_by_other (Employee.id old) (form req !! "employee_id_code") (employees st)
       = false
    /\ st' = mkStore
               ((fun r => if Employee.id r =? Employee.id old then
                    Employee.mk (Employee.id old)
                      (form req !! "employee_id_code") (form req !! "first_name")
                      (form req !! "last_name") (form req !! "department")
                      (form req !! "position") (form req !! "email")
                      (form req !! "nis_number") (form req !! "tax_reference")
                      (form req !! "bank_name") (form req !! "bank_account") dob
                  else r) <$> employees st)
               (payslips st)
    /\ resp = Redirect "dashboard" None.
Proof.
  unfold edit_employee.
  destruct (get_or_404 Employee.id (employees st) emp_id) as [old|] eqn:Eo; [|discriminate].
  cbn [mbind result_bind]. rewrite Hpost.
  destruct (edited_dob (form req) old) as [dob|] eqn:Ed; [|discriminate].
  cbn [mbind result_bind]. unfold update_employee. cbn [Employee.id Employee.employee_id_code].
  destruct (code_taken_by_other _ _ _) eqn:Ec; [discriminate|].
  cbn [mbind result_bind]. intros [= <- <-].
  exists old, dob. repeat split; reflexivity || assumption.
Qed.

Lemma edited_row (old e r : Employee.t) (rows : list Employee.t) :
  r ∈ (fun x => if Employee.id x =? Employee.id old then e else x) <$> rows ->
  Employee.id e = Employee.id old -> Employee.id r = Employee.id old -> r = e.
Proof.
  intros (x & -> & _)%list_elem_of_fmap He Hr.
  destruct (Employee.id x =? Employee.id old) eqn:E; [reflexivity|].
  apply Z.eqb_neq in E. contradiction.
Qed.

(** X16: a successful employee edit overwrites the ten text columns with
    what the form carries under their names -- a field the form lacks
    becomes null -- and touches neither the keys nor the payslips. *)
Theorem edit_employee_overwrites (st' : Store) (resp : response) :
  edit_employee st req emp_id = Ok (st', resp) ->
  payslips st' = payslips st
  /\ Employee.id <$> employees st' = Employee.id <$> employees st
  /\ (exists e, e ∈ employees st' /\ Employee.id e = emp_id)
  /\ forall e, e ∈ employees st' -> Employee.id e = emp_id ->
       Employee.employee_id_code e = form req !! "employee_id_code"
       /\ Employee.first_name e = form req !! "first_name"
       /\ Employee.last_name e = form req !! "last_name"
       /\ Employee.department e = form req !! "department"
       /\ Employee.position e = form req !! "position"
       /\ Employee.email e = form req !! "email"
       /\ Employee.nis_number e = form req !! "nis_number"
       /\ Employee.tax_reference e = form req !! "tax_reference"
       /\ Employee.bank_name e = form req !! "bank_name"
       /\ Employee.bank_account e = form req !! "bank_account".
Proof.
  intros (old & dob & Hold & _ & _ & -> & _)%edit_employee_saved.
  apply get_or_404_found in Hold as [Hin Hid]. cbn [payslips employees].
  split; [reflexivity|]. split; [|split].
  - rewrite <- list_fmap_compose. apply list_fmap_ext. intros _ x _. cbn.
    destruct (Z.eqb_spec (Employee.id x) (Employee.id old)); [now cbn|reflexivity].
  - eexists. split; [|shelve]. apply list_elem_of_fmap. exists old.
    rewrite Z.eqb_refl. split; [reflexivity|exact Hin].
    Unshelve. exact Hid.
  - intros e He Heid. apply edited_row in He as ->; [|reflexivity|congruence].
    cbn. repeat split.
Qed.

(** X17: an edit without a date of birth, or with an empty one, keeps the
    stored date of birth; a non-empty one replaces it by the parsed date. *)
Theorem edit_employee_date_of_birth (st' : Store) (resp : response) :
  edit_employee st req emp_id = Ok (st', resp) ->
  exists old, get_or_404 Employee.id (employees st) emp_id = Ok old
    /\ forall e, e ∈ employees st' -> Employee.id e = emp_id ->
         (form req !! "date_of_birth" = None \/ form req !! "date_of_birth" = Some ""%string ->
            Employee.date_of_birth e = Employee.date_of_birth old)
         /\ (forall s, form req !! "date_of_birth" = Some s -> s <> ""%string ->
               exists d, strptime_ymd s = Some d /\ Employee.date_of_birth e = Some d).
Proof.
  intros (old & dob & Hold & Hdob & _ & -> & _)%edit_employee_saved.
  exists old. split; [exact Hold|].
  apply get_or_404_found in Hold as [Hin Hid]. cbn [employees].
  intros e He Heid. apply edited_row in He as ->; [|reflexivity|congruence].
  cbn [Employee.date_of_birth]. unfold edited_dob in Hdob. split.
  - intros [Hn | Hn]; rewrite Hn in Hdob; cbn in Hdob; congruence.
  - intros s Hs Hne. rewrite Hs in Hdob.
    destruct (String.eqb_spec s ""); [contradiction|].
    destruct (strptime_ymd s) as [d|]; [|discriminate].
    cbn in Hdob. exists d. split; congruence.
Qed.


(** X19: a successful edit keeps employee codes unique. *)
Theorem edit_employee_keeps_codes_unique (st' : Store) (resp : response) :
  employee_ids_unique st -> codes_unique (employees st) ->
  edit_employee st req emp_id = Ok (st', resp) ->
  codes_unique (employees st').
Proof.
  unfold employee_ids_unique. intros Hids Hcodes.
  intros (old & dob & Hold & _ & Hfree & -> & _)%edit_employee_saved.
  cbn [employees]. intros i j r1 r2 c Hi Hj Hc1 Hc2.
  rewrite list_lookup_fmap in Hi, Hj.
  destruct (employees st !! i) as [q1|] eqn:Hq1; [|discriminate].
  destruct (employees st !! j) as [q2|] eqn:Hq2; [|discriminate].
  cbn in Hi, Hj. injection Hi as <-. injection Hj as <-.
  assert (Hclash : forall q, q ∈ employees st -> Employee.id q <> Employee.id old ->
                     Employee.employee_id_code q = Some c ->
                     form req !! "employee_id_code" = Some c -> False).
  { intros q Hq Hne Hqc Hf. rewrite Hf in Hfree. cbn in Hfree.
    assert (Ht : existsb (fun r => negb (Employee.id r =? Employee.id old)
                            && match Employee.employee_id_code r with
                               | Some c' => String.eqb c c'
                               | None => false
                               end) (employees st) = true).
    { apply existsb_exists. exists q. split; [now apply list_elem_of_In|].
      rewrite Hqc, String.eqb_refl, andb_true_r. now apply negb_true_iff, Z.eqb_neq. }
    congruence. }
  destruct (Z.eqb_spec (Employee.id q1) (Employee.id old)) as [E1|E1],
           (Z.eqb_spec (Employee.id q2) (Employee.id old)) as [E2|E2]; cbn in Hc1, Hc2.
  - eapply NoDup_lookup; [exact Hids|..]; rewrite list_lookup_fmap.
    + rewrite Hq1. reflexivity.
    + rewrite Hq2. cbn. now rewrite E2, E1.
  - exfalso. apply (Hclash q2); [eapply list_elem_of_lookup_2; exact Hq2|..]; assumption.
  - exfalso. apply (Hclash q1); [eapply list_elem_of_lookup_2; exact Hq1|..]; assumption.
  - eapply Hcodes; eassumption.
Qed.

End EmployeeEditFacts.

(** ** Authentication and bootstrap *)

Section AuthFacts.
Context {PH : PasswordHashing}.

Lemma user_by_email_found (users : list User.t) (e : string) (u : User.t) :
  user_by_email users e = Some u -> u ∈ users /\ User.email u = Some e.
Proof.
  unfold user_by_email. intros [Hin Hb]%find_some.
  split; [now apply list_elem_of_In|]. now apply bool_decide_eq_true in Hb.
Qed.

Lemma user_by_email_last (users : list User.t) (e : string) (u : User.t) :
  user_by_email users e = None -> User.email u = Some e ->
  user_by_email (users ++ [u]) e = Some u.
Proof.
  unfold user_by_email. intros Hnone Hu.
  induction users as [|x users IH]; cbn [app List.find] in *.
  - rewrite bool_decide_eq_true_2 by exact Hu. reflexivity.
  - destruct (bool_decide (User.email x = Some e)); [discriminate|]. now apply IH.
Qed.

(** X20: [initdb] leaves a table that has an administrator row exactly as
    it is (no password reset), adds one such row otherwise, always ends with
    one present, and running it again changes nothing. *)
Theorem initdb_idempotent (salt salt' : string) (users : list User.t) :
  (forall u, user_by_email users admin_email = Some u -> initdb salt users = users)
  /\ (user_by_email users admin_email = None ->
      exists u, initdb salt users = users ++ [u]
        /\ User.email u = Some admin_email /\ User.role u = Some "admin"%string
        /\ forall v, v ∈ users -> User.id v < User.id u)
  /\ (exists u, user_by_email (initdb salt users) admin_email = Some u)
  /\ initdb salt' (initdb salt users) = initdb salt users.
Proof.
  destruct (user_by_email users admin_email) as [u0|] eqn:E.
  - assert (H : forall s, initdb s users = users) by (intros s; unfold initdb; now rewrite E).
    split; [intros _ _; apply H|]. split; [discriminate|].
    rewrite !H, E. split; [eauto|reflexivity].
  - set (u := User.mk (next_id User.id users) (Some "Admin"%string) (Some admin_email)
                (Some (generate_password_hash salt "ChangeMe123!")) (Some "admin"%string)).
    assert (H : initdb salt users = users ++ [u]) by (unfold initdb; now rewrite E).
    assert (Hu : user_by_email (users ++ [u]) admin_email = Some u)
      by (now apply user_by_email_last).
    split; [discriminate|]. split; [|split].
    + intros _. exists u. split; [exact H|]. split; [reflexivity|]. split; [reflexivity|].
      intros v Hv. now apply next_id_above.
    + rewrite H. eauto.
    + rewrite H. unfold initdb. now rewrite Hu.
Qed.

Variables (users : list User.t) (req : Request).

(** X21: nobody is logged in unless the form names the email of a stored
    user and the password check of the first user with that email says
    yes. *)
Theorem login_sound (u : User.t) (flashes : list string) (resp : response) :
  login users req = Ok (Some u, flashes, resp) ->
  exists e pw,
    method req = POST
    /\ form req !! "email" = Some e /\ form req !! "password" = Some pw
    /\ user_by_email users e = Some u /\ u ∈ users /\ User.email u = Some e
    /\ check_password_hash (User.password_hash u) pw = Ok true
    /\ flashes = [] /\ resp = Redirect "dashboard" None.
Proof.
  unfold login, form_getitem. destruct (method req); [discriminate|].
  destruct (form req !! "email") as [e|]; [|discriminate]. cbn [of_option mbind result_bind].
  destruct (user_by_email users e) as [u0|] eqn:Eu; [|discriminate].
  destruct (form req !! "password") as [pw|]; [|discriminate].
  cbn [of_option mbind result_bind].
  destruct (check_password_hash (User.password_hash u0) pw) as [[]|] eqn:Ec;
    cbn [mbind result_bind]; try discriminate.
  intros [= <- <- <-]. apply user_by_email_found in Eu as Hf. destruct Hf as [Hin He].
  exists e, pw. repeat split; assumption.
Qed.

(** X22: a POST with an unknown email and one with a wrong password get
    the same answer, and the password field is not even read for an unknown
    email; but for a known email a missing password field is a bad request,
    which an unknown email never is. *)
Theorem login_rejections (e : string) :
  method req = POST -> form req !! "email" = Some e ->
  let rejected := Ok (None, ["Invalid credentials"%string], RenderTemplate "login.html") in
  (user_by_email users e = None -> login users req = rejected)
  /\ (forall u pw, user_by_email users e = Some u -> form req !! "password" = Some pw ->
        check_password_hash (User.password_hash u) pw = Ok false ->
        login users req = rejected)
  /\ (forall u, user_by_email users e = Some u -> form req !! "password" = None ->
        login users req = Raise (BadRequestKeyError "password")).
Proof.
  intros Hpost He rejected. unfold login, form_getitem. rewrite Hpost, He.
  cbn [of_option mbind result_bind]. split; [|split].
  - intros ->. reflexivity.
  - intros u pw -> -> Hc. cbn [of_option mbind result_bind]. now rewrite Hc.
  - intros u -> ->. reflexivity.
Qed.

End AuthFacts.

(** ** The properties above, run on the sample data *)

Lemma unknown_employee_not_found_witness :
  (forall e, e ∈ employees sample_store -> Employee.id e <> 99)
  /\ (- 2 ^ 63 <= 99 < 2 ^ 63 ->
      payslip_new (RT := reference_runtime) sample_today 0 sample_store
        reversed_period_request 99 = Raise NotFound
      /\ edit_employee (SP := iso_date) sample_store reversed_period_request 99
         = Raise NotFound)
  /\ (2 ^ 63 <= 99 ->
      payslip_new (RT := reference_runtime) sample_today 0 sample_store
        reversed_period_request 99 = Raise OverflowError
      /\ edit_employee (SP := iso_date) sample_store reversed_period_request 99
         = Raise OverflowError).
Proof.
  assert (H : forall e, e ∈ employees sample_store -> Employee.id e <> 99).
  { intros e He. cbn in He. apply list_elem_of_singleton in He as ->. cbn. lia. }
  split; [exact H|].
  exact (unknown_employee_not_found (RT := reference_runtime) (SP := iso_date)
           sample_today 0 sample_store reversed_period_request 99 H).
Defined.

Lemma unknown_payslip_not_found_witness :
  (forall p, p ∈ payslips march_store -> Payslip.id p <> 2 ^ 63)
  /\ (- 2 ^ 63 <= 2 ^ 63 < 2 ^ 63 ->
      edit_payslip (RT := reference_runtime) march_store manual_edit_request (2 ^ 63)
        = Raise NotFound
      /\ payslip_view march_store (2 ^ 63) = Raise NotFound)
  /\ (2 ^ 63 <= 2 ^ 63 ->
      edit_payslip (RT := reference_runtime) march_store manual_edit_request (2 ^ 63)
        = Raise OverflowError
      /\ payslip_view march_store (2 ^ 63) = Raise OverflowError).
Proof.
  assert (H : forall p, p ∈ payslips march_store -> Payslip.id p <> 2 ^ 63).
  { intros p Hp. cbn in Hp. apply list_elem_of_singleton in Hp as ->. cbn. lia. }
  split; [exact H|].
  exact (unknown_payslip_not_found (RT := reference_runtime) march_store
           manual_edit_request (2 ^ 63) H).
Defined.

Lemma payslip_write_bad_dates_witness :
  method no_dates_request = POST
  /\ get_or_404 Employee.id (employees march_store) 1 = Ok sample_employee
  /\ get_or_404 Payslip.id (payslips march_store) 1 = Ok march_payslip
  /\
  let created :=
    payslip_new (RT := reference_runtime) sample_today 0 march_store no_dates_request 1 in
  let edited := edit_payslip (RT := reference_runtime) march_store no_dates_request 1 in
  (form no_dates_request !! "period_start" = None ->
     created = Raise (BadRequestKeyError "period_start")
     /\ edited = Raise (BadRequestKeyError "period_start"))
  /\ (forall s, form no_dates_request !! "period_start" = Some s ->
        date_fromisoformat (Runtime := reference_runtime) s = None ->
        created = Raise ValueError /\ edited = Raise ValueError)
  /\ (forall e, parse_date (RT := reference_runtime) (form no_dates_request) "period_start"
                = Raise e ->
        store_after march_store created = march_store
        /\ store_after march_store edited = march_store).
Proof.
  split; [reflexivity|]. split; [reflexivity|]. split; [reflexivity|].
  apply (payslip_write_bad_dates (RT := reference_runtime) sample_today 0 march_store
           no_dates_request 1 1 sample_employee march_payslip "period_start");
    [reflexivity | reflexivity | reflexivity | left; reflexivity].
Defined.

Lemma payslip_new_agrees_with_calculator_witness :
  method infinite_pay_request = POST
  /\ get_or_404 Employee.id (employees sample_store) 1 = Ok sample_employee
  /\ exists st' p b o a h r,
       payslip_new (RT := special_runtime) sample_today 0 sample_store infinite_pay_request 1
         = Ok (st', Redirect "payslip_view" (Some (Payslip.id p)))
       /\ parse_float (RT := special_runtime) (form infinite_pay_request) "basic_pay" = Ok b
       /\ parse_float (RT := special_runtime) (form infinite_pay_request) "overtime_pay"
          = Ok o
       /\ parse_float (RT := special_runtime) (form infinite_pay_request) "allowances" = Ok a
       /\ parse_float (RT := special_runtime) (form infinite_pay_request) "hours_worked"
          = Ok h
       /\ parse_float (RT := special_runtime) (form infinite_pay_request) "rate_per_hour"
          = Ok r
       /\ payslips st' = payslips sample_store ++ [p]
       /\ employees st' = employees sample_store
       /\ Payslip.employee_id p = 1
       /\ Payslip.created_by p = current_user_id infinite_pay_request
       /\ Payslip.created_at p = 0
       /\ Payslip.period_start p = mkDate 2025 4 1 /\ Payslip.period_end p = mkDate 2025 4 30
       /\ Payslip.basic_pay p = sqlite_real b
       /\ Payslip.overtime_pay p = sqlite_real o
       /\ Payslip.allowances p = sqlite_real a
       /\ Payslip.hours_worked p = sqlite_real h
       /\ Payslip.rate_per_hour p = sqlite_real r
       /\ let '(_, nis, tax, net) := compute_payroll sample_today sample_employee b o a h r in
          Payslip.nis p = sqlite_real nis /\ Payslip.tax p = sqlite_real tax
          /\ Payslip.net_pay p = sqlite_real net.
Proof.
  split; [reflexivity|]. split; [reflexivity|].
  apply (payslip_new_agrees_with_calculator (RT := special_runtime) sample_today 0
           sample_store infinite_pay_request 1 sample_employee
           (mkDate 2025 4 1) (mkDate 2025 4 30)); reflexivity.
Defined.


Lemma edit_payslip_changes_one_row_witness :
  payslip_ids_unique march_store
  /\ edit_payslip (RT := reference_runtime) march_store manual_edit_request 1
     = Ok (mkStore [sample_employee] [manual_edit_payslip], Redirect "payslip_view" (Some 1))
  /\ exists i old p,
       payslips march_store !! i = Some old /\ Payslip.id old = 1
       /\ payslips (mkStore [sample_employee] [manual_edit_payslip])
          = <[i := p]> (payslips march_store)
       /\ employees (mkStore [sample_employee] [manual_edit_payslip])
          = employees march_store
       /\ Payslip.id p = 1
       /\ Payslip.employee_id p = Payslip.employee_id old
       /\ Payslip.created_by p = Payslip.created_by old
       /\ Payslip.created_at p = Payslip.created_at old
       /\ payslip_ids_unique (mkStore [sample_employee] [manual_edit_payslip]).
Proof.
  assert (H : payslip_ids_unique march_store) by apply NoDup_singleton.
  split; [exact H|]. split; [vm_compute; reflexivity|].
  apply (edit_payslip_changes_one_row (RT := reference_runtime) march_store _
           manual_edit_request 1 (Redirect "payslip_view" (Some 1)));
    [reflexivity | vm_compute; reflexivity | exact H].
Defined.

Lemma edit_payslip_idempotent_witness :
  method manual_edit_request = POST
  /\ edit_payslip (RT := reference_runtime) march_store manual_edit_request 1
     = Ok (mkStore [sample_employee] [manual_edit_payslip], Redirect "payslip_view" (Some 1))
  /\ edit_payslip (RT := reference_runtime) (mkStore [sample_employee] [manual_edit_payslip])
       manual_edit_request 1
     = Ok (mkStore [sample_employee] [manual_edit_payslip], Redirect "payslip_view" (Some 1)).
Proof.
  split; [reflexivity|]. split; [vm_compute; reflexivity|].
  apply (edit_payslip_idempotent (RT := reference_runtime) march_store _
           manual_edit_request 1 (Redirect "payslip_view" (Some 1)));
    [reflexivity | vm_compute; reflexivity].
Defined.

Lemma edit_employee_overwrites_witness :
  method rename_request = POST
  /\ edit_employee (SP := iso_date) two_employee_store rename_request 1
     = Ok (mkStore [renamed_employee; senior_employee] [march_payslip],
           Redirect "dashboard" None)
  /\ payslips (mkStore [renamed_employee; senior_employee] [march_payslip])
     = payslips two_employee_store
  /\ Employee.id <$> [renamed_employee; senior_employee]
     = Employee.id <$> employees two_employee_store
  /\ (exists e, e ∈ [renamed_employee; senior_employee] /\ Employee.id e = 1)
  /\ forall e, e ∈ [renamed_employee; senior_employee] -> Employee.id e = 1 ->
       Employee.employee_id_code e = form rename_request !! "employee_id_code"
       /\ Employee.first_name e = form rename_request !! "first_name"
       /\ Employee.last_name e = form rename_request !! "last_name"
       /\ Employee.department e = form rename_request !! "department"
       /\ Employee.position e = form rename_request !! "position"
       /\ Employee.email e = form rename_request !! "email"
       /\ Employee.nis_number e = form rename_request !! "nis_number"
       /\ Employee.tax_reference e = form rename_request !! "tax_reference"
       /\ Employee.bank_name e = form rename_request !! "bank_name"
       /\ Employee.bank_account e = form rename_request !! "bank_account".
Proof.
  split; [reflexivity|]. split; [vm_compute; reflexivity|].
  apply (edit_employee_overwrites (SP := iso_date) two_employee_store rename_request 1
           eq_refl (mkStore [renamed_employee; senior_employee] [march_payslip])
           (Redirect "dashboard" None)).
  vm_compute. reflexivity.
Defined.

Lemma edit_employee_date_of_birth_witness :
  method rename_request = POST
  /\ exists old, get_or_404 Employee.id (employees two_employee_store) 1 = Ok old
       /\ forall e, e ∈ [renamed_employee; senior_employee] -> Employee.id e = 1 ->
            (form rename_request !! "date_of_birth" = None
             \/ form rename_request !! "date_of_birth" = Some ""%string ->
               Employee.date_of_birth e = Employee.date_of_birth old)
            /\ (forall s, form rename_request !! "date_of_birth" = Some s -> s <> ""%string ->
                  exists d, iso_date s = Some d /\ Employee.date_of_birth e = Some d).
Proof.
  split; [reflexivity|].
  apply (edit_employee_date_of_birth (SP := iso_date) two_employee_store rename_request 1
           eq_refl (mkStore [renamed_employee; senior_employee] [march_payslip])
           (Redirect "dashboard" None)).
  vm_compute. reflexivity.
Defined.


Lemma two_employee_codes_unique : codes_unique (employees two_employee_store).
Proof.
  intros i j r1 r2 c Hi Hj H1 H2.
  destruct i as [|[|i]], j as [|[|j]]; cbn in Hi, Hj; try discriminate; try reflexivity;
    injection Hi as <-; injection Hj as <-; cbn in H1, H2; congruence.
Qed.

Lemma two_employee_ids_unique : employee_ids_unique two_employee_store.
Proof.
  unfold employee_ids_unique. cbn.
  apply NoDup_cons. split; [|apply NoDup_singleton].
  intros H%list_elem_of_singleton. discriminate.
Qed.

Lemma edit_employee_keeps_codes_unique_witness :
  method rename_request = POST
  /\ employee_ids_unique two_employee_store
  /\ codes_unique (employees two_employee_store)
  /\ codes_unique [renamed_employee; senior_employee].
Proof.
  split; [reflexivity|]. split; [exact two_employee_ids_unique|].
  split; [exact two_employee_codes_unique|].
  apply (edit_employee_keeps_codes_unique (SP := iso_date) two_employee_store rename_request 1
           eq_refl (mkStore [renamed_employee; senior_employee] [march_payslip])
           (Redirect "dashboard" None) two_employee_ids_unique two_employee_codes_unique).
  vm_compute. reflexivity.
Defined.

Lemma login_sound_witness :
  login (PH := toy_hashing) [admin_user] admin_login_request
    = Ok (Some admin_user, [], Redirect "dashboard" None)
  /\ exists e pw,
       method admin_login_request = POST
       /\ form admin_login_request !! "email" = Some e
       /\ form admin_login_request !! "password" = Some pw
       /\ user_by_email [admin_user] e = Some admin_user
       /\ admin_user ∈ [admin_user] /\ User.email admin_user = Some e
       /\ check_password_hash (PasswordHashing := toy_hashing)
            (User.password_hash admin_user) pw = Ok true
       /\ @nil string = [] /\ Redirect "dashboard" None = Redirect "dashboard" None.
Proof.
  split; [vm_compute; reflexivity|].
  apply (login_sound (PH := toy_hashing) [admin_user] admin_login_request admin_user []
           (Redirect "dashboard" None)).
  vm_compute. reflexivity.
Defined.

Lemma login_rejections_witness :
  method unknown_email_request = POST
  /\ form unknown_email_request !! "email" = Some "nobody@example.com"%string
  /\
  let rejected := Ok (None, ["Invalid credentials"%string], RenderTemplate "login.html") in
  (user_by_email [admin_user] "nobody@example.com" = None ->
     login (PH := toy_hashing) [admin_user] unknown_email_request = rejected)
  /\ (forall u pw, user_by_email [admin_user] "nobody@example.com" = Some u ->
        form unknown_email_request !! "password" = Some pw ->
        check_password_hash (PasswordHashing := toy_hashing) (User.password_hash u) pw
          = Ok false ->
        login (PH := toy_hashing) [admin_user] unknown_email_request = rejected)
  /\ (forall u, user_by_email [admin_user] "nobody@example.com" = Some u ->
        form unknown_email_request !! "password" = None ->
        login (PH := toy_hashing) [admin_user] unknown_email_request
          = Raise (BadRequestKeyError "password")).
Proof.
  split; [reflexivity|]. split; [reflexivity|].
  apply (login_rejections (PH := toy_hashing) [admin_user] unknown_email_request
           "nobody@example.com"); reflexivity.
Defined.
